(** * slack.py: permalink resolution, file extraction and rendering

    A shallow embedding of [scripts/slack.py] (the command-line Slack client)
    and the properties of its specification.

    Python values are modelled as the interpreter has them:
    - a [str] is a sequence of Unicode code points ([pystr], a list of [N]);
    - the [re] module is a backtracking matcher (greedy quantifiers, first
      successful path wins);
    - an [int] is an unbounded integer ([Z]); a [float] is an IEEE-754
      binary64 value, kept as its exact dyadic value with the rounding written
      out;
    - a [dict] that the code mutates lives in a store and is named by a
      reference, so that two names of one dict stay aliases. *)

From Stdlib Require Import ZArith NArith List String Ascii Bool Lia DecimalString.
From Stdlib Require Floats.SpecFloat.
From stdpp Require Import gmap.

Import ListNotations.
Local Open Scope list_scope.

(** ** Python strings *)

(** A character is a Unicode code point. *)
Definition char := N.

Definition pystr := list char.

(** The code points of an ASCII literal of the source. *)
Definition lit (s : string) : pystr := map N_of_ascii (list_ascii_of_string s).
Arguments lit : simpl never.

(** [s[:-k]] : everything but the last [k] characters (empty when the string
    has no more than [k]). *)
Definition slice_until_last (k : nat) (s : pystr) : pystr :=
  firstn (length s - k) s.

(** [s[-k:]] : the last [k] characters (the whole string when it is shorter). *)
Definition slice_last (k : nat) (s : pystr) : pystr :=
  skipn (length s - k) s.

Fixpoint starts_with (p s : pystr) : bool :=
  match p, s with
  | [], _ => true
  | c :: p', d :: s' => N.eqb c d && starts_with p' s'
  | _ :: _, [] => false
  end.

(** [needle in s] on strings. *)
Fixpoint contains (needle s : pystr) : bool :=
  starts_with needle s ||
  match s with
  | [] => false
  | _ :: s' => contains needle s'
  end.

(** ** The [re] module, for the patterns of the source *)

Module Re.

(** Character classes. *)
Definition is_ascii_digit (c : char) : bool := (48 <=? c)%N && (c <=? 57)%N.
Definition is_ascii_upper (c : char) : bool := (65 <=? c)%N && (c <=? 90)%N.

(** [[^/]] *)
Definition not_slash (c : char) : bool := negb (c =? 47)%N.
(** [[A-Z0-9]] *)
Definition upper_or_digit (c : char) : bool := is_ascii_upper c || is_ascii_digit c.
(** [[0-9.]] *)
Definition digit_or_dot (c : char) : bool := is_ascii_digit c || (c =? 46)%N.

(** [\d] in a [str] pattern matches every Unicode decimal digit (category Nd):
    among the ASCII characters exactly [0-9]; which other code points, depends
    on the Unicode database of the running interpreter, [nd]. *)
Definition unicode_digit (nd : char -> bool) (c : char) : bool :=
  is_ascii_digit c || ((128 <=? c)%N && nd c).

Inductive regex :=
| Lit (l : pystr)                  (* literal text *)
| Plus (p : char -> bool)          (* [class+], greedy *)
| Group (r : regex)                (* ( ... ) *)
| Seq (r1 r2 : regex).

(** The rest of [s] after the literal [l], when [s] starts with it. *)
Fixpoint match_lit (l s : pystr) : option pystr :=
  match l, s with
  | [], _ => Some s
  | c :: l', d :: s' => if N.eqb c d then match_lit l' s' else None
  | _ :: _, [] => None
  end.

(** One or more characters of class [p], then the continuation [k] on the
    rest: the longest run first, giving characters back one at a time while
    the continuation fails. *)
Fixpoint plus_class {R : Type} (p : char -> bool) (s : pystr)
    (k : pystr -> option R) : option R :=
  match s with
  | [] => None
  | c :: s' =>
      if p c then
        match plus_class p s' k with
        | Some r => Some r
        | None => k s'
        end
      else None
  end.

(** Captured groups, in the order the groups close. *)
Definition captures := list pystr.

Fixpoint run (r : regex) (s : pystr) (caps : captures)
    (k : pystr -> captures -> option captures) : option captures :=
  match r with
  | Lit l =>
      match match_lit l s with
      | Some s' => k s' caps
      | None => None
      end
  | Plus p => plus_class p s (fun s' => k s' caps)
  | Group r' =>
      run r' s caps
        (fun s' caps' => k s' (caps' ++ [firstn (length s - length s') s]))
  | Seq r1 r2 => run r1 s caps (fun s' caps' => run r2 s' caps' k)
  end.

(** [re.match]: the pattern at the start of the string. *)
Definition re_match (r : regex) (s : pystr) : option captures :=
  run r s [] (fun _ caps => Some caps).

(** [re.search]: the pattern at the leftmost position where it matches. *)
Fixpoint re_search (r : regex) (s : pystr) : option captures :=
  match re_match r s with
  | Some caps => Some caps
  | None =>
      match s with
      | [] => None
      | _ :: s' => re_search r s'
      end
  end.

(** [m.group(i)], groups counted from 1. *)
Definition group (caps : captures) (i : nat) : pystr := nth (i - 1) caps [].

(** A run of class [p] cannot go on into [s]: [s] is empty or starts with a
    character outside the class. *)
Definition ends_run (p : char -> bool) (s : pystr) : Prop :=
  match s with
  | [] => True
  | c :: _ => p c = false
  end.

End Re.

(** ** [parse_slack_url] *)

Record parsed_url := {
  channel_id : pystr;
  message_ts : pystr;
  thread_ts : option pystr   (* the key is absent when [None] *)
}.

Section UrlResolver.

(** The non-ASCII decimal digits of the interpreter's Unicode database. *)
Variable nd : char -> bool.

(** [https://[^/]+\.slack\.com/archives/([A-Z0-9]+)/p(\d+)] *)
Definition permalink_pattern : Re.regex :=
  Re.Seq (Re.Lit (lit "https://"))
 (Re.Seq (Re.Plus Re.not_slash)
 (Re.Seq (Re.Lit (lit ".slack.com/archives/"))
 (Re.Seq (Re.Group (Re.Plus Re.upper_or_digit))
 (Re.Seq (Re.Lit (lit "/p"))
         (Re.Group (Re.Plus (Re.unicode_digit nd))))))).

(** [thread_ts=([0-9.]+)] *)
Definition thread_pattern : Re.regex :=
  Re.Seq (Re.Lit (lit "thread_ts=")) (Re.Group (Re.Plus Re.digit_or_dot)).

Definition parse_slack_url (url : pystr) : option parsed_url :=
  match Re.re_match permalink_pattern url with
  | None => None
  | Some m =>
      let channel := Re.group m 1 in
      let raw_ts := Re.group m 2 in
      let ts := slice_until_last 6 raw_ts ++ lit "." ++ slice_last 6 raw_ts in
      let thread :=
        if contains (lit "thread_ts=") url then
          match Re.re_search thread_pattern url with
          | Some tm => Some (Re.group tm 1)
          | None => None
          end
        else None in
      Some {| channel_id := channel; message_ts := ts; thread_ts := thread |}
  end.

End UrlResolver.

Definition not_equals (c : char) : bool := negb (c =? 61)%N.

(** Host-name text: no [/] (the pattern's [[^/]+]) and no [=]. *)
Definition host_char (c : char) : bool := Re.not_slash c && not_equals c.

(** The text [https://<sub>.slack.com/archives/<chan>/p<digits>]. *)
Definition permalink (sub chan digits : pystr) : pystr :=
  lit "https://" ++ sub ++ lit ".slack.com/archives/" ++ chan ++ lit "/p" ++ digits.


(** ** Python numbers *)

(** An exception (a subclass of [Exception]): its class and the text [str(e)]
    gives. *)
Record exn := { exn_class : pystr; exn_text : pystr }.

Definition OverflowError (msg : pystr) : exn :=
  {| exn_class := lit "OverflowError"; exn_text := msg |}.

Definition AttributeError (msg : pystr) : exn :=
  {| exn_class := lit "AttributeError"; exn_text := msg |}.

(** A call returns or raises. *)
Inductive outcome (A : Type) :=
| Ok (a : A)
| Raise (e : exn).
Arguments Ok {A} a.
Arguments Raise {A} e.

Definition bind {A B : Type} (x : outcome A) (f : A -> outcome B) : outcome B :=
  match x with
  | Ok a => f a
  | Raise e => Raise e
  end.

(** The decimal numeral of a natural number ([str] of a non-negative [int]). *)
Definition decimal (n : Z) : pystr :=
  lit (NilZero.string_of_uint (N.to_uint (Z.to_N n))).

(** [str(n)] for an [int]. *)
Definition str_of_int (n : Z) : pystr :=
  (if (n <? 0)%Z then lit "-" else []) ++ decimal (Z.abs n).

Module PyFloat.
Local Open Scope Z_scope.

(** A finite binary64 number, by its exact value [mant * 2^expo]. (A negative
    zero is not told apart; no operation below produces one.) *)
Record float := { mant : Z; expo : Z }.

(** The integer nearest to [num / den], ties to the even one
    ([0 <= num], [0 < den]). *)
Definition half_even (num den : Z) : Z :=
  let q := num / den in
  let r := num mod den in
  if (den <? 2 * r) || ((2 * r =? den) && Z.odd q) then q + 1 else q.

(** Rounding to binary64, round-half-to-even: the number [m * 2^e] is kept to
    53 significant bits, the exponent of the last place not below -1074; [None]
    when the rounded magnitude reaches [2^1024] (no finite binary64). *)
Definition round (m e : Z) : option float :=
  let a := Z.abs m in
  let e' := Z.max (Z.log2 a + 1 + e - 53) (-1074) in
  let q := if e' <=? e then a * 2 ^ (e - e') else half_even a (2 ^ (e' - e)) in
  if (0 <=? e') && (2 ^ 1024 <=? q * 2 ^ e') then None
  else Some {| mant := Z.sgn m * q; expo := e' |}.

(** [float(n)] *)
Definition of_int (n : Z) : outcome float :=
  match round n 0 with
  | Some x => Ok x
  | None => Raise (OverflowError (lit "int too large to convert to float"))
  end.

(** [n / 1024] on an [int]: the correctly rounded quotient. *)
Definition int_div_1024 (n : Z) : outcome float :=
  match round n (-10) with
  | Some x => Ok x
  | None => Raise (OverflowError (lit "integer division result too large for a float"))
  end.

(** [x / 1024] on a [float]: the quotient by a power of two never overflows;
    it is rounded when it falls among the subnormals. *)
Definition div_1024 (x : float) : float :=
  match round (mant x) (expo x - 10) with
  | Some y => y
  | None => x
  end.

(** [x < k] for an [int] [k]. *)
Definition lt_int (x : float) (k : Z) : bool :=
  if 0 <=? expo x then mant x * 2 ^ expo x <? k
  else mant x <? k * 2 ^ (- expo x).

(** The magnitude of [x] in tenths, rounded to the nearest (ties to even). *)
Definition tenths (x : float) : Z :=
  let a := Z.abs (mant x) in
  if 0 <=? expo x then a * 2 ^ expo x * 10
  else half_even (a * 10) (2 ^ (- expo x)).

(** A sign and a number of tenths, as [d...d.d]. *)
Definition show_tenths (negative : bool) (t : Z) : pystr :=
  (if negative then lit "-" else []) ++ decimal (t / 10) ++ lit "." ++ decimal (t mod 10).

(** [f"{x:.1f}"]: the value correctly rounded to one decimal place. *)
Definition format_1f (x : float) : pystr :=
  show_tenths (mant x <? 0) (tenths x).

(** The binary64 number of value [n / 2^s], for [0 < n < 2^53]: 53
    significant bits, the last of weight [2^(log2 n - 52 - s)]. *)
Definition scaled (n s : Z) : float :=
  {| mant := n * 2 ^ (52 - Z.log2 n); expo := Z.log2 n - 52 - s |}.

(** A positive binary64 number written with 53 significant bits (or as
    [2^53] times its last place), inside the finite range. *)
Definition normal53 (x : float) : Prop :=
  2 ^ 52 <= mant x <= 2 ^ 53 /\
  (expo x < 0 \/ mant x * 2 ^ expo x < 2 ^ 1024).

(** The rational [num / den] to one decimal place, nearest with ties to even
    ([0 < den]). *)
Definition one_decimal (num den : Z) : pystr :=
  show_tenths (num <? 0) (half_even (Z.abs num * 10) den).

(** [round] against the Standard Library's specification of IEEE 754
    rounding at binary64 (53 bits, exponents up to 1024): the same number, or
    both out of range. *)
Definition agrees_with_ieee (m e : Z) : bool :=
  match round m e, SpecFloat.binary_normalize 53 1024 m e false with
  | None, SpecFloat.S754_infinity _ => true
  | Some x, SpecFloat.S754_zero _ => mant x =? 0
  | Some x, SpecFloat.S754_finite s m' e' =>
      let v := if s then Z.neg m' else Z.pos m' in
      let low := Z.min (expo x) e' in
      mant x * 2 ^ (expo x - low) =? v * 2 ^ (e' - low)
  | _, _ => false
  end.

End PyFloat.

(** The value of [size_bytes]: an [int] on entry, a [float] once divided. *)
Inductive number :=
| Int (n : Z)
| Float (x : PyFloat.float).

(** [size_bytes < 1024] *)
Definition lt_1024 (v : number) : bool :=
  match v with
  | Int n => (n <? 1024)%Z
  | Float x => PyFloat.lt_int x 1024
  end.

(** [f"{size_bytes:.1f}"]: an [int] is converted to [float] first. *)
Definition format_number_1f (v : number) : outcome pystr :=
  match v with
  | Int n => bind (PyFloat.of_int n) (fun x => Ok (PyFloat.format_1f x))
  | Float x => Ok (PyFloat.format_1f x)
  end.

(** [size_bytes /= 1024] *)
Definition divide_by_1024 (v : number) : outcome number :=
  match v with
  | Int n => bind (PyFloat.int_div_1024 n) (fun x => Ok (Float x))
  | Float x => Ok (Float (PyFloat.div_1024 x))
  end.

(** ** [format_file_size] *)

(** The loop over the units, from the unit [units] starts with. *)
Fixpoint format_units (units : list pystr) (size_bytes : number) : outcome pystr :=
  match units with
  | [] => bind (format_number_1f size_bytes) (fun s => Ok (s ++ lit "TB"))
  | unit :: units' =>
      if lt_1024 size_bytes then
        bind (format_number_1f size_bytes) (fun s => Ok (s ++ unit))
      else
        bind (divide_by_1024 size_bytes) (format_units units')
  end.

Definition format_file_size (size_bytes : Z) : outcome pystr :=
  format_units [lit "B"; lit "KB"; lit "MB"; lit "GB"] (Int size_bytes).

(** The units in the order the loop steps through them, and its fallback. *)
Definition unit_names : list pystr :=
  [lit "B"; lit "KB"; lit "MB"; lit "GB"; lit "TB"].

(** The first unit [k], counted from [k] over [steps] units, at which the
    size is below 1024 of that unit ([n < 1024^(k+1)]); the unit after them
    when there is none. *)
Fixpoint first_unit (k steps : nat) (n : Z) : nat :=
  match steps with
  | O => k
  | S steps' =>
      if (n <? 1024 ^ Z.of_nat (S k))%Z then k else first_unit (S k) steps' n
  end.

(** B, KB, MB and GB are tried; TB is what is left. *)
Definition unit_index (n : Z) : nat := first_unit 0 4 n.

(** ** Messages and files *)

(** [dict.get(key, default)] on a key that may be absent. *)
Definition get {A : Type} (field : option A) (dflt : A) : A :=
  match field with
  | Some v => v
  | None => dflt
  end.

(** Truth value of a string: non-empty. *)
Definition nonempty {A : Type} (l : list A) : bool :=
  match l with
  | [] => false
  | _ :: _ => true
  end.

(** [x or y] on values that may be [None] or empty. *)
Definition or_else (x y : option pystr) : option pystr :=
  match x with
  | Some s => if nonempty s then x else y
  | None => y
  end.

(** [if v:] for such a value. *)
Definition truthy (v : option pystr) : bool :=
  match v with
  | Some s => nonempty s
  | None => false
  end.

(** [sep.join(parts)] *)
Fixpoint join (sep : pystr) (parts : list pystr) : pystr :=
  match parts with
  | [] => []
  | [p] => p
  | p :: rest => p ++ sep ++ join sep rest
  end.

(** A dict is an object: two names of one dict are one reference. *)
Definition ref := nat.

(** A file record, with the keys the code reads ([None]: key absent) and the
    two it writes. *)
Module File.
Record file := {
  name : option pystr;
  size : option Z;
  filetype : option pystr;
  url_private_download : option pystr;
  url_private : option pystr;
  permalink : option pystr;
  _message_ts : option pystr;
  _message_user : option pystr
}.
End File.
Abbreviation file := File.file.

(** The dict [{}]. *)
Definition empty_file : file :=
  {| File.name := None; File.size := None; File.filetype := None;
     File.url_private_download := None; File.url_private := None;
     File.permalink := None;
     File._message_ts := None; File._message_user := None |}.

(** The file dicts in memory. *)
Abbreviation store := (gmap ref file).

(** The dict a reference names. *)
Definition deref (st : store) (r : ref) : file := get (st !! r) empty_file.

Module Msg.
Record reaction := { name : pystr; count : Z }.

(** A message record; its file records are held by reference. *)
Record message := {
  user : option pystr;
  bot_id : option pystr;
  ts : option pystr;
  text : option pystr;
  reactions : option (list reaction);
  files : option (list ref)
}.
End Msg.
Abbreviation message := Msg.message.

(** [msg.get('files', [])] *)
Definition files_of (msg : message) : list ref := get (Msg.files msg) [].

(** [msg.get('ts', '')] and [msg.get('user', '')] *)
Definition owner_tags (msg : message) : pystr * pystr :=
  (get (Msg.ts msg) [], get (Msg.user msg) []).

(** ** [extract_files_from_messages] *)

(** [f['_message_ts'] = ts; f['_message_user'] = user] *)
Definition tag_file (ts user : pystr) (f : file) : file :=
  {| File.name := File.name f; File.size := File.size f;
     File.filetype := File.filetype f;
     File.url_private_download := File.url_private_download f;
     File.url_private := File.url_private f;
     File.permalink := File.permalink f;
     File._message_ts := Some ts; File._message_user := Some user |}.

(** The inner loop: each file dict of [msg] is written to, in place, and
    appended to [files]. *)
Fixpoint tag_each (msg : message) (msg_files : list ref) (st : store)
    (files : list ref) : store * list ref :=
  match msg_files with
  | [] => (st, files)
  | f :: rest =>
      tag_each msg rest
        (alter (tag_file (get (Msg.ts msg) []) (get (Msg.user msg) [])) f st)
        (files ++ [f])
  end.

(** The outer loop. *)
Fixpoint extract_loop (messages : list message) (st : store)
    (files : list ref) : store * list ref :=
  match messages with
  | [] => (st, files)
  | msg :: rest =>
      let '(st', files') := tag_each msg (files_of msg) st files in
      extract_loop rest st' files'
  end.

(** The function on a list of message dicts: the memory after the call and the
    list returned. *)
Definition extract_files_from_messages (messages : list message) (st : store)
    : store * list ref :=
  extract_loop messages st [].

(** The last message of [messages] that lists the file dict [r]. *)
Fixpoint last_owner (messages : list message) (r : ref) : option message :=
  match messages with
  | [] => None
  | msg :: rest =>
      match last_owner rest r with
      | Some m => Some m
      | None => if bool_decide (r ∈ files_of msg) then Some msg else None
      end
  end.

(** A message with the keys [ts], [user] and [files] only. *)
Definition message_with (ts user : pystr) (files : list ref) : message :=
  {| Msg.user := Some user; Msg.bot_id := None; Msg.ts := Some ts;
     Msg.text := None; Msg.reactions := None; Msg.files := Some files |}.

(** A file dict with the key [name] only. *)
Definition file_named (name : pystr) : file :=
  {| File.name := Some name; File.size := None; File.filetype := None;
     File.url_private_download := None; File.url_private := None;
     File.permalink := None;
     File._message_ts := None; File._message_user := None |}.

(** ** [format_message] *)

(** The paperclip, U+1F4CE. *)
Definition paperclip : char := 128206%N.

Section Formatting.

(** Lines 240-244: [datetime.fromtimestamp(float(ts))] rendered
    [%Y-%m-%d %H:%M:%S] in the local time zone, or [ts] itself when that
    raises. *)
Variable local_time : pystr -> pystr.

(** The author: [msg.get("user", msg.get("bot_id", "unknown"))]. *)
Definition author_id (msg : message) : pystr :=
  get (Msg.user msg) (get (Msg.bot_id msg) (lit "unknown")).

(** [users_cache.get(user_id, user_id) if users_cache else user_id]; an
    absent cache is [None], and an empty one is false as well. *)
Definition author_name (msg : message) (users_cache : option (gmap pystr pystr)) : pystr :=
  let user_id := author_id msg in
  match users_cache with
  | Some cache =>
      if bool_decide (cache = ∅) then user_id else get (cache !! user_id) user_id
  | None => user_id
  end.

Definition time_str (msg : message) : pystr :=
  let ts := get (Msg.ts msg) [] in
  if nonempty ts then local_time ts else lit "unknown".

Definition reaction_str (msg : message) : pystr :=
  let reactions := get (Msg.reactions msg) [] in
  if nonempty reactions then
    lit (String "010" "  Reactions: ") ++
    join (lit " ")
      (map (fun r => lit ":" ++ Msg.name r ++ lit ": (" ++
                     str_of_int (Msg.count r) ++ lit ")") reactions)
  else [].

Definition files_str (st : store) (msg : message) : pystr :=
  let files := get (Msg.files msg) [] in
  if nonempty files then
    lit (String "010" "  Files: ") ++
    join (lit ", ")
      (map (fun f => [paperclip] ++ lit " " ++ get (File.name (deref st f)) (lit "unnamed"))
           files)
  else [].

Definition format_message (st : store) (msg : message)
    (users_cache : option (gmap pystr pystr)) : pystr :=
  lit "[" ++ time_str msg ++ lit "] " ++ author_name msg users_cache ++
  lit (String ":" (String "010" "  ")) ++ get (Msg.text msg) [] ++
  reaction_str msg ++ files_str st msg.

End Formatting.

(** ** [format_file_info] *)

Definition format_file_info (f : file) (verbose : bool) : outcome pystr :=
  let name := get (File.name f) (lit "unnamed") in
  bind (format_file_size (get (File.size f) 0%Z)) (fun size =>
  let filetype := get (File.filetype f) (lit "unknown") in
  let url :=
    get (or_else (File.url_private_download f) (Some (get (File.url_private f) []))) [] in
  let permalink := get (File.permalink f) [] in
  if verbose then
    Ok (lit "  " ++ [paperclip] ++ lit " " ++ name ++
        lit (String "010" "     Type: ") ++ filetype ++ lit " | Size: " ++ size ++
        lit (String "010" "     Download: ") ++ url ++
        lit (String "010" "     Permalink: ") ++ permalink)
  else
    Ok (lit "  " ++ [paperclip] ++ lit " " ++ name ++
        lit " (" ++ filetype ++ lit ", " ++ size ++ lit ")")).

(** ** The output stage of [main] (lines 464-550) *)

(** What the process writes: [print(...)] and [print(..., file=sys.stderr)],
    each with the text written, line end included. *)
Inductive event :=
| Stdout (text : pystr)
| Stderr (text : pystr).

(** The value under the envelope's key [messages]: a list of message dicts
    (history, replies), or, in a search response, a dict that holds the list
    under its key [matches] beside other keys. *)
Inductive messages_value :=
| MessageList (messages : list message)
| SearchRecord (other_keys : list pystr) (matches : option (list message)).

(** What the output stage does not compute itself. *)
Record collaborators := {
  (** the network and the file system *)
  World : Type;
  (** the keys of an envelope that the stage only prints ([channels], [user],
      [channel]) *)
  Rest : Type;
  has_keys : Rest -> bool;
  (** the lines the channel-list, user-info and channel-info blocks print
      (lines 518-543) *)
  record_lines : Rest -> list pystr;
  (** [datetime.fromtimestamp(float(ts)).strftime(...)], or [ts] when that
      raises (lines 240-244) *)
  local_time : pystr -> pystr;
  (** [os.path.join] *)
  path_join : pystr -> pystr -> pystr;
  (** [Path(dir).mkdir(parents=True, exist_ok=True)]: the exception raised,
      if any *)
  mkdir : World -> pystr -> World * option exn;
  (** [urllib.request.Request(url)] with its headers: the exception raised,
      if any (a text that is no URL) *)
  new_request : pystr -> option exn;
  (** [urlopen], then the write to the output path: the exception raised, if
      any *)
  transfer : World -> pystr -> pystr -> World * option exn
}.

(** The response envelope. *)
Record envelope (C : collaborators) := {
  ok : option bool;
  error : option pystr;
  messages : option messages_value;
  rest : Rest C
}.
Arguments ok {C} e.
Arguments error {C} e.
Arguments messages {C} e.
Arguments rest {C} e.

(** The command line, as far as the output stage reads it. *)
Module Args.
Record args := {
  json : bool;
  list_files : bool;
  download_files : bool;
  verbose : bool;
  output_dir : pystr;
  search : option pystr
}.
End Args.
Abbreviation args := Args.args.

Section Main.
Variable C : collaborators.

(** [json.dumps(result, indent=2, ensure_ascii=False)] *)
Variable json_dumps : envelope C -> pystr.

Record state := {
  memory : store;          (* the file dicts *)
  world : World C;
  out : list event         (* written so far *)
}.

(** How a piece of the program ends: normally, by an exception, or by
    [sys.exit] ([SystemExit] is no [Exception]: no handler here catches it). *)
Inductive control (A : Type) :=
| Normal (a : A)
| Raised (e : exn)
| SysExit (code : Z).
Arguments Normal {A} a.
Arguments Raised {A} e.
Arguments SysExit {A} code.

Definition M (A : Type) : Type := state -> control A * state.

Definition ret {A : Type} (a : A) : M A := fun s => (Normal a, s).

Definition bindM {A B : Type} (m : M A) (k : A -> M B) : M B :=
  fun s =>
    match m s with
    | (Normal a, s') => k a s'
    | (Raised e, s') => (Raised e, s')
    | (SysExit code, s') => (SysExit code, s')
    end.

Notation "x <- m ;; k" := (bindM m (fun x => k))
  (at level 100, m at next level, right associativity).
Notation "m ;; k" := (bindM m (fun _ => k))
  (at level 100, right associativity).

Definition raise {A : Type} (e : exn) : M A := fun s => (Raised e, s).

Definition sys_exit {A : Type} (code : Z) : M A := fun s => (SysExit code, s).

Definition write (ev : event) : M unit :=
  fun s => (Normal tt, {| memory := memory s; world := world s; out := out s ++ [ev] |}).

(** [print(text)] *)
Definition print (text : pystr) : M unit := write (Stdout (text ++ [10%N])).

(** [print(text, end=" ")] *)
Definition print_then_space (text : pystr) : M unit := write (Stdout (text ++ lit " ")).

(** [print(text, file=sys.stderr)] *)
Definition eprint (text : pystr) : M unit := write (Stderr (text ++ [10%N])).

Definition read_memory : M store := fun s => (Normal (memory s), s).

Definition of_outcome {A : Type} (o : outcome A) : M A :=
  match o with
  | Ok a => ret a
  | Raise e => raise e
  end.

Fixpoint for_each {A : Type} (l : list A) (body : A -> M unit) : M unit :=
  match l with
  | [] => ret tt
  | x :: l' => body x ;; for_each l' body
  end.

(** [enumerate(l, i)] *)
Fixpoint enumerate {A : Type} (i : Z) (l : list A) : list (Z * A) :=
  match l with
  | [] => []
  | x :: l' => (i, x) :: enumerate (i + 1) l'
  end.

(** *** [SlackClient.download_file] (lines 181-196) *)

Definition download_file (url output_path : pystr) : M bool :=
  match new_request C url with
  | Some e => raise e
  | None =>
      fun s =>
        let '(w, failure) := transfer C (world s) url output_path in
        match failure with
        | None => (Normal true, {| memory := memory s; world := w; out := out s |})
        | Some e =>
            (Normal false,
             {| memory := memory s; world := w;
                out := out s ++ [Stderr (lit "Error downloading file: " ++ exn_text e ++ [10%N])] |})
        end
  end.

(** *** The values a loop over [messages] sees *)

(** The keys of the search dict (a loop over a dict runs over its keys). *)
Definition search_keys (other_keys : list pystr) (matches : option (list message))
    : list pystr :=
  other_keys ++ match matches with Some _ => [lit "matches"] | None => [] end.

(** [len(messages)] *)
Definition len (v : messages_value) : nat :=
  match v with
  | MessageList messages => length messages
  | SearchRecord other_keys matches => length (search_keys other_keys matches)
  end.

(** [msg.get] where [msg] is a [str]. *)
Definition str_has_no_get : exn :=
  AttributeError (lit "'str' object has no attribute 'get'").

(** [extract_files_from_messages(messages)] as [main] calls it: on the search
    dict the loop variable is a key, and [msg.get] raises. *)
Definition call_extract_files (v : messages_value) : M (list ref) :=
  match v with
  | MessageList messages =>
      fun s =>
        let '(st, files) := extract_files_from_messages messages (memory s) in
        (Normal files, {| memory := st; world := world s; out := out s |})
  | SearchRecord other_keys matches =>
      for_each (search_keys other_keys matches) (fun _ => raise str_has_no_get) ;;
      ret []
  end.

Definition dashes : pystr := repeat 45%N 60.

(** [for msg in l: print(format_message(msg)); print("-" * 60)] *)
Definition print_each_message (l : list message) : M unit :=
  for_each l (fun msg =>
    st <- read_memory ;;
    print (format_message (local_time C) st msg None) ;;
    print dashes).

(** Lines 502-505, the plain [messages] path. *)
Definition print_messages (v : messages_value) : M unit :=
  print (lit "Found " ++ decimal (Z.of_nat (len v)) ++ lit " message(s):" ++ [10%N]) ;;
  match v with
  | MessageList messages => print_each_message messages
  | SearchRecord other_keys matches =>
      for_each (search_keys other_keys matches) (fun _ => raise str_has_no_get)
  end.

(** Lines 508-516, the search path. *)
Definition print_search_results (v : messages_value) : M unit :=
  match v with
  | SearchRecord _ matches =>
      let search_messages := get matches [] in
      if nonempty search_messages then
        print (lit "Found " ++ decimal (Z.of_nat (length search_messages))
               ++ lit " match(es):" ++ [10%N]) ;;
        print_each_message search_messages
      else ret tt
  | MessageList _ => ret tt   (* [isinstance(search_data, dict)] is false *)
  end.

(** *** The download batch (lines 485-500) *)

Fixpoint download_loop (a : args) (files : list ref) (success : Z) : M Z :=
  match files with
  | [] => ret success
  | f :: files' =>
      st <- read_memory ;;
      let url := or_else (File.url_private_download (deref st f))
                         (File.url_private (deref st f)) in
      let name := get (File.name (deref st f)) (lit "unnamed") in
      if truthy url then
        let output_path := path_join C (Args.output_dir a) name in
        print_then_space (lit "  Downloading: " ++ name ++ lit "...") ;;
        done <- download_file (get url []) output_path ;;
        if done : bool then
          print (lit "OK") ;; download_loop a files' (success + 1)
        else
          print (lit "FAILED") ;; download_loop a files' success
      else download_loop a files' success
  end.

Definition summary (success : Z) (total : nat) : pystr :=
  [10%N] ++ lit "Downloaded " ++ decimal success ++ lit "/" ++
  decimal (Z.of_nat total) ++ lit " files.".

Definition make_output_dir (a : args) : M unit :=
  fun s =>
    let '(w, failure) := mkdir C (world s) (Args.output_dir a) in
    let s' := {| memory := memory s; world := w; out := out s |} in
    match failure with
    | None => (Normal tt, s')
    | Some e => (Raised e, s')
    end.

Definition download_all (a : args) (files : list ref) : M unit :=
  print ([10%N] ++ lit "Downloading to: " ++ Args.output_dir a) ;;
  make_output_dir a ;;
  success <- download_loop a files 0 ;;
  print (summary success (length files)).

(** *** The listing (lines 476-500) *)

Definition list_files_block (a : args) (v : messages_value) : M unit :=
  files <- call_extract_files v ;;
  if nonempty files then
    print (lit "Found " ++ decimal (Z.of_nat (length files)) ++ lit " file(s):" ++ [10%N]) ;;
    for_each (enumerate 1 files) (fun '(i, f) =>
      st <- read_memory ;;
      info <- of_outcome (format_file_info (deref st f) (Args.verbose a)) ;;
      print (decimal i ++ lit ". " ++ info)) ;;
    if Args.download_files a then download_all a files else ret tt
  else print (lit "No files found in messages.").

(** [if messages:] *)
Definition messages_truthy (v : messages_value) : bool :=
  match len v with
  | O => false
  | S _ => true
  end.

(** [if result:] : the dict has a key. *)
Definition envelope_truthy (result : envelope C) : bool :=
  match ok result, error result, messages result with
  | None, None, None => has_keys C (rest result)
  | _, _, _ => true
  end.

(** Lines 469-543: the pretty rendering. *)
Definition pretty (a : args) (result : envelope C) : M unit :=
  if negb (get (ok result) false) then
    eprint (lit "Error: " ++ get (error result) (lit "Unknown error")) ;;
    sys_exit 1
  else
    let v := get (messages result) (MessageList []) in
    (if Args.list_files a || Args.download_files a then list_files_block a v
     else if messages_truthy v then print_messages v
     else ret tt) ;;
    (if truthy (Args.search a) then
       print_search_results (get (messages result) (SearchRecord [] None))
     else ret tt) ;;
    for_each (record_lines C (rest result)) print.

(** Lines 464-543. *)
Definition output_stage (a : args) (result : envelope C) : M unit :=
  if envelope_truthy result then
    if Args.json a then print (json_dumps result)
    else pretty a result
  else ret tt.

(** The stage under [main]'s handlers: the exit status of the process and
    the state it leaves. An exception is reported as [Error: <text>] on
    stderr with status 1; falling off the end is status 0. *)
Definition main_output (a : args) (result : envelope C) (s : state) : Z * state :=
  match output_stage a result s with
  | (Normal _, s') => (0%Z, s')
  | (Raised e, s') =>
      (1%Z, {| memory := memory s'; world := world s';
               out := out s' ++ [Stderr (lit "Error: " ++ exn_text e ++ [10%N])] |})
  | (SysExit code, s') => (code, s')
  end.

End Main.

Arguments Normal {A} a.
Arguments Raised {A} e.
Arguments SysExit {A} code.
Arguments memory {C} s.
Arguments world {C} s.
Arguments out {C} s.

(** A clock for the examples: the time of lines 240-244 in a process on a
    POSIX system whose local zone is UTC, for the timestamps Slack sends: one
    to ten digits of seconds, below 2^32, then nothing, or a point and up to
    six digits (which do not reach the second shown). Any other text is given
    back as it is, as line 244 does for a text that [float] or [fromtimestamp]
    refuses; the examples use timestamps of the first form only. *)
Module Utc.
Local Open Scope Z_scope.

Definition is_digit (c : char) : bool := ((48 <=? c) && (c <=? 57))%N.

Fixpoint number (acc : Z) (s : pystr) : Z :=
  match s with
  | [] => acc
  | c :: s' => number (10 * acc + (Z.of_N c - 48)) s'
  end.

Fixpoint leading_digits (s : pystr) : pystr * pystr :=
  match s with
  | [] => ([], [])
  | c :: s' =>
      if is_digit c then let '(d, r) := leading_digits s' in (c :: d, r)
      else ([], s)
  end.

(** The whole seconds of a timestamp of that form. *)
Definition seconds (ts : pystr) : option Z :=
  let '(whole, rest) := leading_digits ts in
  let fraction_fits :=
    match rest with
    | [] => true
    | c :: fraction =>
        (c =? 46)%N && forallb is_digit fraction && (length fraction <=? 6)%nat
    end in
  if nonempty whole && (length whole <=? 10)%nat && fraction_fits
     && (number 0 whole <? 2 ^ 32)
  then Some (number 0 whole) else None.

(** The day [days] after 1970-01-01, as year, month and day. *)
Definition civil (days : Z) : Z * Z * Z :=
  let z := days + 719468 in
  let era := z / 146097 in
  let doe := z mod 146097 in
  let yoe := (doe - doe / 1460 + doe / 36524 - doe / 146096) / 365 in
  let doy := doe - (365 * yoe + yoe / 4 - yoe / 100) in
  let mp := (5 * doy + 2) / 153 in
  let d := doy - (153 * mp + 2) / 5 + 1 in
  let m := if mp <? 10 then mp + 3 else mp - 9 in
  let y := yoe + era * 400 + (if m <=? 2 then 1 else 0) in
  (y, m, d).

Definition padded (width : nat) (n : Z) : pystr :=
  let d := decimal n in repeat 48%N (width - length d) ++ d.

(** [%Y-%m-%d %H:%M:%S] *)
Definition render (n : Z) : pystr :=
  let '(y, m, d) := civil (n / 86400) in
  let t := n mod 86400 in
  padded 4 y ++ lit "-" ++ padded 2 m ++ lit "-" ++ padded 2 d ++ lit " " ++
  padded 2 (t / 3600) ++ lit ":" ++ padded 2 (t mod 3600 / 60) ++ lit ":" ++
  padded 2 (t mod 60).

Definition shown (ts : pystr) : pystr :=
  match seconds ts with
  | Some n => render n
  | None => ts
  end.

End Utc.

(** Collaborators for the examples: no network (every transfer fails), a file
    system that makes any directory, the clock of a process in UTC. *)
Definition offline : collaborators :=
  {| World := unit;
     Rest := unit;
     has_keys := fun _ => false;
     record_lines := fun _ => [];
     local_time := Utc.shown;
     path_join := fun dir name => dir ++ lit "/" ++ name;
     mkdir := fun w _ => (w, None);
     new_request := fun _ => None;
     transfer := fun w _ _ =>
       (w, Some {| exn_class := lit "URLError"; exn_text := lit "offline" |}) |}.

(** The state before the output stage: the decoded file dicts, nothing
    written yet. *)
Definition start (C : collaborators) (st : store) (w : World C) : state C :=
  {| memory := st; world := w; out := [] |}.

(** ** Reading a result back *)


(** The texts the permalink pattern matches at their start: a permalink,
    then anything. *)
Definition permalink_shaped (nd : char -> bool) (url : pystr) : Prop :=
  exists sub chan digits rest : pystr,
    url = permalink sub chan digits ++ rest /\
    sub <> [] /\ forallb Re.not_slash sub = true /\
    chan <> [] /\ forallb Re.upper_or_digit chan = true /\
    digits <> [] /\ forallb (Re.unicode_digit nd) digits = true.

(** The texts that hold [thread_ts=] followed by a digit or a point. *)
Definition has_thread_ts (url : pystr) : Prop :=
  exists a t b : pystr,
    url = a ++ lit "thread_ts=" ++ t ++ b /\
    t <> [] /\ forallb Re.digit_or_dot t = true.

(** ** Counting downloads *)

(** [url_private_download or url_private] of a file dict, as a truth value. *)
Definition has_url (st : store) (f : ref) : bool :=
  truthy (or_else (File.url_private_download (deref st f))
                  (File.url_private (deref st f))).

(** The keys of a file dict that [extract_files_from_messages] does not
    write. *)
Definition same_but_tags (f g : file) : Prop :=
  File.name g = File.name f /\ File.size g = File.size f /\
  File.filetype g = File.filetype f /\
  File.url_private_download g = File.url_private_download f /\
  File.url_private g = File.url_private f /\
  File.permalink g = File.permalink f.

(** The URL and the name the download loop reads from a file dict. *)
Definition file_url (st : store) (f : ref) : pystr :=
  get (or_else (File.url_private_download (deref st f))
               (File.url_private (deref st f))) [].

Definition file_name (st : store) (f : ref) : pystr :=
  get (File.name (deref st f)) (lit "unnamed").

(** The state with more written. *)
Definition emit {C : collaborators} (s : state C) (events : list event) : state C :=
  {| memory := memory s; world := world s; out := out s ++ events |}.

(** The state after a transfer. *)
Definition with_world {C : collaborators} (s : state C) (w : World C) : state C :=
  {| memory := memory s; world := w; out := out s |}.

(** [print] of each text. *)
Definition printed (texts : list pystr) : list event :=
  map (fun t => Stdout (t ++ [10%N])) texts.


(** Collaborators for the examples: every transfer succeeds. *)
Definition online : collaborators :=
  {| World := unit;
     Rest := unit;
     has_keys := fun _ => false;
     record_lines := fun _ => [];
     local_time := Utc.shown;
     path_join := fun dir name => dir ++ lit "/" ++ name;
     mkdir := fun w _ => (w, None);
     new_request := fun _ => None;
     transfer := fun w _ _ => (w, None) |}.

(** The same, with requests built for [https://] texts only. *)
Definition online_strict : collaborators :=
  {| World := unit;
     Rest := unit;
     has_keys := fun _ => false;
     record_lines := fun _ => [];
     local_time := Utc.shown;
     path_join := fun dir name => dir ++ lit "/" ++ name;
     mkdir := fun w _ => (w, None);
     new_request := fun url =>
       if starts_with (lit "https://") url then None
       else Some {| exn_class := lit "ValueError"; exn_text := lit "unknown url type" |};
     transfer := fun w _ _ => (w, None) |}.

(** A file dict with a name and a download URL. *)
Definition file_at (name url : pystr) : file :=
  {| File.name := Some name; File.size := None; File.filetype := None;
     File.url_private_download := Some url; File.url_private := None;
     File.permalink := None;
     File._message_ts := None; File._message_user := None |}.

(** The command line of a download. *)
Definition download_args (dir : pystr) : args :=
  {| Args.json := false; Args.list_files := false; Args.download_files := true;
     Args.verbose := false; Args.output_dir := dir; Args.search := None |}.


(** ** Tokens (lines 306-335) *)

(** [s.lstrip(chars)], [s.rstrip(chars)] and [s.strip(chars)] for the
    characters [p] holds of. *)
Fixpoint lstrip (p : char -> bool) (s : pystr) : pystr :=
  match s with
  | [] => []
  | c :: s' => if p c then lstrip p s' else s
  end.

Definition rstrip (p : char -> bool) (s : pystr) : pystr :=
  rev (lstrip p (rev s)).

Definition strip_by (p : char -> bool) (s : pystr) : pystr :=
  rstrip p (lstrip p s).

(** White space as [str.strip()] sees it: among the ASCII characters the
    codes 9 to 13, 28 to 31 and 32; [ws] holds of the other white space of the
    interpreter's Unicode database. *)
Definition is_space (ws : char -> bool) (c : char) : bool :=
  ((9 <=? c)%N && (c <=? 13)%N) || ((28 <=? c)%N && (c <=? 32)%N) ||
  ((128 <=? c)%N && ws c).

(** [s.split(sep, 1)] on a text that holds [sep]: what stands before the
    first [sep] and what stands after it. *)
Fixpoint split_first (sep : char) (s : pystr) : pystr * pystr :=
  match s with
  | [] => ([], [])
  | c :: s' =>
      if (c =? sep)%N then ([], s')
      else let '(before, after) := split_first sep s' in (c :: before, after)
  end.

Section Tokens.
Variable ws : char -> bool.

(** One turn of the loop over the lines of the file. *)
Definition env_line (line : pystr) (tokens : option pystr * option pystr)
    : option pystr * option pystr :=
  let '(xoxc, xoxd) := tokens in
  let line := strip_by (is_space ws) line in
  if nonempty line && negb (starts_with (lit "#") line) && contains (lit "=") line then
    let '(key, value) := split_first 61%N line in
    if bool_decide (key = lit "SLACK_XOXC_TOKEN") && negb (truthy xoxc) then
      (Some value, xoxd)
    else if bool_decide (key = lit "SLACK_XOXD_TOKEN") && negb (truthy xoxd) then
      (xoxc, Some value)
    else (xoxc, xoxd)
  else (xoxc, xoxd).

Fixpoint env_lines (lines : list pystr) (tokens : option pystr * option pystr)
    : option pystr * option pystr :=
  match lines with
  | [] => tokens
  | line :: lines' => env_lines lines' (env_line line tokens)
  end.

(** [load_env_file]. The file is [None] when the path does not exist, and
    else the lines the loop gets to read: an error while opening or reading is
    swallowed by the bare [except], which leaves the tokens as the lines read
    so far have set them. *)
Definition load_env_file (file : option (list pystr)) (xoxc xoxd : option pystr)
    : option pystr * option pystr :=
  match file with
  | Some lines => env_lines lines (xoxc, xoxd)
  | None => (xoxc, xoxd)
  end.

(** [load_tokens], from the two environment variables ([None]: not set) and
    the [.env] file beside the script. *)
Definition load_tokens (env_xoxc env_xoxd : option pystr) (file : option (list pystr))
    : option pystr * option pystr :=
  if negb (truthy env_xoxc && truthy env_xoxd) then
    load_env_file file env_xoxc env_xoxd
  else (env_xoxc, env_xoxd).

End Tokens.

(** ** The client (lines 30-179) *)

(** A value of a parameter or of a JSON body. *)
Inductive pvalue :=
| PNone
| PStr (s : pystr)
| PInt (n : Z)
| PBool (b : bool).

(** [str(v)], as [urlencode] applies it. *)
Definition pvalue_str (v : pvalue) : pystr :=
  match v with
  | PNone => lit "None"
  | PStr s => s
  | PInt n => str_of_int n
  | PBool true => lit "True"
  | PBool false => lit "False"
  end.

Definition is_none (v : pvalue) : bool :=
  match v with
  | PNone => true
  | _ => false
  end.

(** [{k: v for k, v in params.items() if v is not None}], with the values as
    [urlencode] writes them (before its quoting). *)
Definition sent_params (params : list (pystr * pvalue)) : list (pystr * pystr) :=
  map (fun kv => (fst kv, pvalue_str (snd kv)))
      (List.filter (fun kv => negb (is_none (snd kv))) params).

(** A request as [urlopen] gets it: the API method after the base URL, the
    query pairs ([None]: no query), the JSON body ([None]: a GET), and the two
    tokens, in the [Authorization] header and the cookie. *)
Record request := {
  api_method : pystr;
  query : option (list (pystr * pystr));
  body : option (list (pystr * pvalue));
  bearer : pystr;
  cookie_d : pystr
}.

(** What [urlopen] and the decoding of its response come to. *)
Inductive reply (C : collaborators) :=
| Decoded (result : envelope C) (st : store)   (* the JSON object, with its file dicts *)
| HTTPError (code : Z) (reason : pystr)
| URLError (reason : pystr)
| OtherException (text : pystr).
Arguments Decoded {C} result st.
Arguments HTTPError {C} code reason.
Arguments URLError {C} reason.
Arguments OtherException {C} text.

(** What the request stage does not compute itself. *)
Record platform (C : collaborators) := {
  (** the non-ASCII decimal digits, for [\d] *)
  digits_table : char -> bool;
  (** the non-ASCII white space, for [str.strip()] *)
  space_table : char -> bool;
  (** [urlopen(req, timeout=30)], [response.read().decode()], [json.loads] *)
  urlopen : World C -> request -> World C * reply C;
  (** an envelope without further keys *)
  no_rest : Rest C;
  (** [json.dumps(result, indent=2, ensure_ascii=False)] *)
  dumps : envelope C -> pystr;
  (** the text of the [TypeError] for a call of [get_channel_history] with
      the keyword [inclusive], which it does not have *)
  unexpected_keyword : pystr;
  (** [parser.format_help()] *)
  help_text : pystr
}.
Arguments digits_table {C} p.
Arguments space_table {C} p.
Arguments urlopen {C} p.
Arguments no_rest {C} p.
Arguments dumps {C} p.
Arguments unexpected_keyword {C} p.
Arguments help_text {C} p.

Definition TypeError (msg : pystr) : exn :=
  {| exn_class := lit "TypeError"; exn_text := msg |}.

(** The command line. *)
Module Cli.
Record cli := {
  url : option pystr;
  history : bool;
  replies : bool;
  search : option pystr;
  list_channels : bool;
  post : bool;
  user_info : option pystr;
  channel_info : option pystr;
  list_files : bool;
  download_files : bool;
  output_dir : pystr;
  channel : option pystr;
  thread_ts : option pystr;
  text : option pystr;
  limit : Z;
  cursor : option pystr;
  json : bool;
  verbose : bool
}.
End Cli.
Abbreviation cli := Cli.cli.

(** The part of the command line the output stage reads. *)
Definition output_args (a : cli) : args :=
  {| Args.json := Cli.json a; Args.list_files := Cli.list_files a;
     Args.download_files := Cli.download_files a; Args.verbose := Cli.verbose a;
     Args.output_dir := Cli.output_dir a; Args.search := Cli.search a |}.

Section Client.
Variable C : collaborators.
Variable P : platform C.

(** The two tokens of the client. *)
Variables xoxc_token xoxd_token : pystr.

(** An optional string as a parameter value. *)
Definition opt (v : option pystr) : pvalue :=
  match v with
  | Some s => PStr s
  | None => PNone
  end.

(** The envelope [_request] makes of a failure. *)
Definition failure (text : pystr) : envelope C :=
  {| ok := Some false; error := Some text; messages := None; rest := no_rest P |}.

Definition reply_envelope (r : reply C) : envelope C :=
  match r with
  | Decoded result _ => result
  | HTTPError code reason => failure (lit "HTTP " ++ str_of_int code ++ lit ": " ++ reason)
  | URLError reason => failure (lit "URL Error: " ++ reason)
  | OtherException text => failure text
  end.

(** [_request]: the request sent, and the envelope returned. The file dicts
    of a decoded response are the ones in memory from then on. *)
Definition _request (method : pystr) (params post_data : option (list (pystr * pvalue)))
    : M C (envelope C) :=
  let req :=
    {| api_method := method;
       query := match params with
                | Some ((_ :: _) as d) => Some (sent_params d)
                | _ => None
                end;
       body := match post_data with
               | Some ((_ :: _) as d) => Some d
               | _ => None
               end;
       bearer := xoxc_token;
       cookie_d := xoxd_token |} in
  fun s =>
    let '(w, r) := urlopen P (world s) req in
    (Normal (reply_envelope r),
     {| memory := match r with Decoded _ st => st | _ => memory s end;
        world := w; out := out s |}).

Definition get_channel_history (channel_id : pystr) (limit : Z)
    (cursor latest oldest : option pystr) (include_all_metadata : bool)
    : M C (envelope C) :=
  _request (lit "conversations.history")
    (Some [(lit "channel", PStr channel_id);
           (lit "limit", PInt limit);
           (lit "cursor", opt cursor);
           (lit "latest", opt latest);
           (lit "oldest", opt oldest);
           (lit "include_all_metadata",
            if include_all_metadata then PStr (lit "true") else PNone)])
    None.

Definition get_thread_replies (channel_id thread_ts : pystr) (limit : Z)
    (cursor : option pystr) (inclusive : bool) : M C (envelope C) :=
  _request (lit "conversations.replies")
    (Some [(lit "channel", PStr channel_id);
           (lit "ts", PStr thread_ts);
           (lit "limit", PInt limit);
           (lit "cursor", opt cursor);
           (lit "inclusive", PStr (if inclusive then lit "true" else lit "false"))])
    None.

Definition search_messages (query : pystr) (count page : Z) (sort sort_dir : pystr)
    : M C (envelope C) :=
  _request (lit "search.messages")
    (Some [(lit "query", PStr query);
           (lit "count", PInt count);
           (lit "page", PInt page);
           (lit "sort", PStr sort);
           (lit "sort_dir", PStr sort_dir)])
    None.

Definition list_channels (types : pystr) (limit : Z) (cursor : option pystr)
    (exclude_archived : bool) : M C (envelope C) :=
  _request (lit "conversations.list")
    (Some [(lit "types", PStr types);
           (lit "limit", PInt limit);
           (lit "cursor", opt cursor);
           (lit "exclude_archived",
            PStr (if exclude_archived then lit "true" else lit "false"))])
    None.

Definition is_colon (c : char) : bool := (c =? 58)%N.

Definition add_reaction (channel_id timestamp emoji : pystr) : M C (envelope C) :=
  _request (lit "reactions.add") None
    (Some [(lit "channel", PStr channel_id);
           (lit "timestamp", PStr timestamp);
           (lit "name", PStr (strip_by is_colon emoji))]).

Definition post_message (channel_id text : pystr) (thread_ts : option pystr)
    (reply_broadcast : bool) : M C (envelope C) :=
  _request (lit "chat.postMessage") None
    (Some ([(lit "channel", PStr channel_id); (lit "text", PStr text)] ++
           if truthy thread_ts then
             [(lit "thread_ts", opt thread_ts);
              (lit "reply_broadcast", PBool reply_broadcast)]
           else [])).

Definition get_user_info (user_id : pystr) : M C (envelope C) :=
  _request (lit "users.info") (Some [(lit "user", PStr user_id)]) None.

Definition get_users_list (limit : Z) (cursor : option pystr) : M C (envelope C) :=
  _request (lit "users.list")
    (Some [(lit "limit", PInt limit); (lit "cursor", opt cursor)]) None.

Definition get_channel_info (channel_id : pystr) : M C (envelope C) :=
  _request (lit "conversations.info") (Some [(lit "channel", PStr channel_id)]) None.

(** *** [main], lines 413-461: the request *)

Definition fail_with (text : pystr) : M C (envelope C) :=
  bindM C (eprint C text) (fun _ => sys_exit C 1).

Definition request_stage (a : cli) : M C (envelope C) :=
  if truthy (Cli.url a) then
    match parse_slack_url (digits_table P) (get (Cli.url a) []) with
    | None =>
        fail_with (lit "Error: Could not parse Slack URL: " ++ get (Cli.url a) [])
    | Some parsed =>
        match thread_ts parsed with
        | Some ts =>
            get_thread_replies (channel_id parsed) ts (Cli.limit a) None true
        | None =>
            (* get_channel_history(channel_id, limit=1, latest=..., inclusive=True) *)
            raise C (TypeError (unexpected_keyword P))
        end
    end
  else if Cli.history a then
    if negb (truthy (Cli.channel a)) then
      fail_with (lit "Error: --channel required for --history")
    else
      get_channel_history (get (Cli.channel a) []) (Cli.limit a) (Cli.cursor a)
        None None false
  else if Cli.replies a then
    if negb (truthy (Cli.channel a)) || negb (truthy (Cli.thread_ts a)) then
      fail_with (lit "Error: --channel and --thread-ts required for --replies")
    else
      get_thread_replies (get (Cli.channel a) []) (get (Cli.thread_ts a) [])
        (Cli.limit a) (Cli.cursor a) true
  else if truthy (Cli.search a) then
    search_messages (get (Cli.search a) []) (Cli.limit a) 1
      (lit "timestamp") (lit "desc")
  else if Cli.list_channels a then
    list_channels (lit "public_channel,private_channel") (Cli.limit a)
      (Cli.cursor a) true
  else if Cli.post a then
    if negb (truthy (Cli.channel a)) || negb (truthy (Cli.text a)) then
      fail_with (lit "Error: --channel and --text required for --post")
    else
      post_message (get (Cli.channel a) []) (get (Cli.text a) []) (Cli.thread_ts a)
        false
  else if truthy (Cli.user_info a) then
    get_user_info (get (Cli.user_info a) [])
  else if truthy (Cli.channel_info a) then
    get_channel_info (get (Cli.channel_info a) [])
  else
    bindM C (write C (Stdout (help_text P))) (fun _ => sys_exit C 0).

End Client.

(** *** [main] *)

(** Where the tokens come from: the two environment variables ([None]: not
    set) and the [.env] file of the skill. *)
Record environment := {
  env_xoxc : option pystr;
  env_xoxd : option pystr;
  env_file : option (list pystr)
}.

Definition found_tokens {C : collaborators} (P : platform C) (env : environment)
    : option pystr * option pystr :=
  load_tokens (space_table P) (env_xoxc env) (env_xoxd env) (env_file env).

(** What is written when a token is missing. *)
Definition tokens_not_found : list event :=
  [Stderr (lit "Error: Slack tokens not found." ++ [10%N]);
   Stderr (lit "Set SLACK_XOXC_TOKEN and SLACK_XOXD_TOKEN environment variables"
           ++ [10%N]);
   Stderr (lit "or configure them in ~/.claude/.mcp.json" ++ [10%N])].

(** Lines 402-550: the process, from the namespace [parse_args] returned to
    its exit status, in a run that no [KeyboardInterrupt] cuts short. What
    comes before that namespace (an [argparse] usage error, [--help]) and the
    [except KeyboardInterrupt] handler of lines 545-547 (status 130) are not
    part of [main] here. *)
Definition main (C : collaborators) (P : platform C) (env : environment)
    (a : cli) (s : state C) : Z * state C :=
  let '(xoxc, xoxd) := found_tokens P env in
  if negb (truthy xoxc && truthy xoxd) then
    (1%Z, {| memory := memory s; world := world s;
             out := out s ++ tokens_not_found |})
  else
    match
      bindM C (request_stage C P (get xoxc []) (get xoxd []) a)
        (output_stage C (dumps P) (output_args a)) s
    with
    | (Normal _, s') => (0%Z, s')
    | (Raised e, s') =>
        (1%Z, {| memory := memory s'; world := world s';
                 out := out s' ++ [Stderr (lit "Error: " ++ exn_text e ++ [10%N])] |})
    | (SysExit code, s') => (code, s')
    end.

(** ** Notions for the statements *)

(** A text that neither starts nor ends with a character of [p]. *)
Definition bare (p : char -> bool) (s : pystr) : bool :=
  match s with
  | [] => true
  | c :: _ => negb (p c) && negb (p (List.last s c))
  end.

(** A line of the file that assigns [key]: it passes the test of line 313
    and [key] stands before its first [=]. *)
Definition assigns (ws : char -> bool) (key line : pystr) : bool :=
  let line := strip_by (is_space ws) line in
  nonempty line && negb (starts_with (lit "#") line) && contains (lit "=") line &&
  bool_decide (fst (split_first 61%N line) = key).

(** An action that stands before [--post] in the chain of lines 414-445 is
    given. *)
Definition earlier_action (a : cli) : bool :=
  truthy (Cli.url a) || Cli.history a || Cli.replies a ||
  truthy (Cli.search a) || Cli.list_channels a.

(** Two command lines that differ in [--post] and [--text] at most. *)
Definition same_but_post (a b : cli) : Prop :=
  Cli.url b = Cli.url a /\ Cli.history b = Cli.history a /\
  Cli.replies b = Cli.replies a /\ Cli.search b = Cli.search a /\
  Cli.list_channels b = Cli.list_channels a /\
  Cli.user_info b = Cli.user_info a /\ Cli.channel_info b = Cli.channel_info a /\
  Cli.list_files b = Cli.list_files a /\ Cli.download_files b = Cli.download_files a /\
  Cli.output_dir b = Cli.output_dir a /\ Cli.channel b = Cli.channel a /\
  Cli.thread_ts b = Cli.thread_ts a /\ Cli.limit b = Cli.limit a /\
  Cli.cursor b = Cli.cursor a /\ Cli.json b = Cli.json a /\
  Cli.verbose b = Cli.verbose a.

(** The state after a request. *)
Definition after_reply {C : collaborators} (s : state C) (w : World C) (r : reply C)
    : state C :=
  {| memory := match r with Decoded _ st => st | _ => memory s end;
     world := w; out := out s |}.

(** A platform for the examples: every request fails with HTTP 404. *)
Definition unreachable : platform offline :=
  {| digits_table := fun _ => false;
     space_table := fun _ => false;
     urlopen := fun w _ => (w, HTTPError 404 (lit "Not Found"));
     no_rest := tt : Rest offline;
     dumps := fun _ => lit "{}";
     unexpected_keyword := lit "SlackClient.get_channel_history() got an unexpected keyword argument 'inclusive'";
     help_text := lit "usage: slack.py";
  |}.

(** A command line with no action and the defaults of the parser. *)
Definition no_action : cli :=
  {| Cli.url := None; Cli.history := false; Cli.replies := false;
     Cli.search := None; Cli.list_channels := false; Cli.post := false;
     Cli.user_info := None; Cli.channel_info := None;
     Cli.list_files := false; Cli.download_files := false;
     Cli.output_dir := lit "./slack-downloads";
     Cli.channel := None; Cli.thread_ts := None; Cli.text := None;
     Cli.limit := 20; Cli.cursor := None; Cli.json := false; Cli.verbose := false |}.

(** Both tokens set in the environment. *)
Definition both_set : environment :=
  {| env_xoxc := Some (lit "xoxc-1"); env_xoxd := Some (lit "xoxd-1");
     env_file := None |}.

(** Command lines for the examples. *)
Definition url_action (u : pystr) : cli :=
  {| Cli.url := Some u; Cli.history := false; Cli.replies := false;
     Cli.search := None; Cli.list_channels := false; Cli.post := false;
     Cli.user_info := None; Cli.channel_info := None;
     Cli.list_files := false; Cli.download_files := false;
     Cli.output_dir := lit "./slack-downloads";
     Cli.channel := None; Cli.thread_ts := None; Cli.text := None;
     Cli.limit := 20; Cli.cursor := None; Cli.json := false; Cli.verbose := false |}.

Definition history_action (ch : pystr) (cursor : option pystr) : cli :=
  {| Cli.url := None; Cli.history := true; Cli.replies := false;
     Cli.search := None; Cli.list_channels := false; Cli.post := false;
     Cli.user_info := None; Cli.channel_info := None;
     Cli.list_files := false; Cli.download_files := false;
     Cli.output_dir := lit "./slack-downloads";
     Cli.channel := Some ch; Cli.thread_ts := None; Cli.text := None;
     Cli.limit := 20; Cli.cursor := cursor; Cli.json := false; Cli.verbose := false |}.

Definition post_action (ch text : pystr) (thread : option pystr) : cli :=
  {| Cli.url := None; Cli.history := false; Cli.replies := false;
     Cli.search := None; Cli.list_channels := false; Cli.post := true;
     Cli.user_info := None; Cli.channel_info := None;
     Cli.list_files := false; Cli.download_files := false;
     Cli.output_dir := lit "./slack-downloads";
     Cli.channel := Some ch; Cli.thread_ts := thread; Cli.text := Some text;
     Cli.limit := 20; Cli.cursor := None; Cli.json := false; Cli.verbose := false |}.
(** * Properties *)

(** ** Strings *)

Lemma starts_with_app (p s : pystr) : starts_with p (p ++ s) = true.
Proof.
  induction p as [|c p IH]; simpl; [reflexivity|].
  now rewrite N.eqb_refl, IH.
Qed.

Lemma contains_app (a n b : pystr) : contains n (a ++ n ++ b) = true.
Proof.
  induction a as [|c a IH].
  - pose proof (starts_with_app n b) as H. simpl app.
    destruct (n ++ b); simpl; now rewrite H.
  - simpl. rewrite IH. apply orb_true_r.
Qed.

Lemma slice_short (k : nat) (s : pystr) :
  length s <= k -> slice_until_last k s = [] /\ slice_last k s = s.
Proof.
  intros H. unfold slice_until_last, slice_last.
  replace (length s - k) with 0 by lia. split; reflexivity.
Qed.


Lemma slice_last_length (k : nat) (s : pystr) :
  k <= length s -> length (slice_last k s) = k.
Proof. intros H. unfold slice_last. rewrite length_skipn. lia. Qed.

(** ** The matcher *)

Module ReFacts.
Import Re.

Lemma match_lit_app (l s : pystr) : match_lit l (l ++ s) = Some s.
Proof.
  induction l as [|c l IH]; simpl; [reflexivity|].
  now rewrite N.eqb_refl.
Qed.

Lemma match_lit_Some (l s s' : pystr) : match_lit l s = Some s' -> s = l ++ s'.
Proof.
  revert s. induction l as [|c l IH]; intros s H; simpl in *.
  - congruence.
  - destruct s as [|d s]; [discriminate|].
    destruct (N.eqb_spec c d) as [->|]; [|discriminate].
    f_equal. now apply IH.
Qed.

Lemma plus_class_ends {R : Type} (p : char -> bool) (k : pystr -> option R) (T : pystr) :
  ends_run p T -> plus_class p T k = None.
Proof.
  destruct T as [|c T]; simpl; [reflexivity|]. now intros ->.
Qed.

(** The greedy run takes all of [s] when the continuation accepts what
    follows and no longer run does. *)
Lemma plus_class_longest {R : Type} (p : char -> bool) (k : pystr -> option R)
    (s T : pystr) (r : R) :
  s <> [] -> forallb p s = true ->
  plus_class p T k = None -> k T = Some r ->
  plus_class p (s ++ T) k = Some r.
Proof.
  intros Hne Hall Hstop Hk.
  induction s as [|c s IH]; [congruence|].
  simpl in Hall. apply andb_true_iff in Hall as [Hc Hs].
  simpl. rewrite Hc.
  destruct s as [|c' s].
  - simpl. now rewrite Hstop.
  - rewrite IH; [reflexivity|discriminate|assumption].
Qed.

Lemma run_seq (r1 r2 : regex) (s : pystr) (caps : captures)
    (k : pystr -> captures -> option captures) :
  run (Seq r1 r2) s caps k = run r1 s caps (fun s' caps' => run r2 s' caps' k).
Proof. reflexivity. Qed.

Lemma run_lit_app (l s : pystr) (caps : captures)
    (k : pystr -> captures -> option captures) :
  run (Lit l) (l ++ s) caps k = k s caps.
Proof. simpl. now rewrite match_lit_app. Qed.

Lemma run_plus_longest (p : char -> bool) (s T : pystr) (caps : captures)
    (k : pystr -> captures -> option captures) (r : captures) :
  s <> [] -> forallb p s = true ->
  run (Plus p) T caps k = None -> k T caps = Some r ->
  run (Plus p) (s ++ T) caps k = Some r.
Proof. intros. simpl. now apply plus_class_longest. Qed.

Lemma run_group_plus (p : char -> bool) (s T : pystr) (caps : captures)
    (k : pystr -> captures -> option captures) (r : captures) :
  s <> [] -> forallb p s = true -> ends_run p T ->
  k T (caps ++ [s]) = Some r ->
  run (Group (Plus p)) (s ++ T) caps k = Some r.
Proof.
  intros Hne Hall Hend Hk. simpl.
  apply plus_class_longest; auto using plus_class_ends.
  rewrite length_app, Nat.add_sub, firstn_app, Nat.sub_diag, firstn_all.
  simpl. now rewrite app_nil_r.
Qed.

Lemma forallb_weaken (p q : char -> bool) (s : pystr) :
  (forall c, p c = true -> q c = true) -> forallb p s = true -> forallb q s = true.
Proof.
  intros Hpq. rewrite !forallb_forall. auto.
Qed.

Lemma ascii_digit_unicode (nd : char -> bool) (c : char) :
  is_ascii_digit c = true -> unicode_digit nd c = true.
Proof. intros H. unfold unicode_digit. now rewrite H. Qed.

End ReFacts.

(** ** The permalink pattern *)

Section UrlFacts.
Import Re ReFacts.
Variable nd : char -> bool.

Lemma permalink_match (sub chan digits rest : pystr) :
  sub <> [] -> forallb not_slash sub = true ->
  chan <> [] -> forallb upper_or_digit chan = true ->
  digits <> [] -> forallb (unicode_digit nd) digits = true ->
  ends_run (unicode_digit nd) rest ->
  re_match (permalink_pattern nd) (permalink sub chan digits ++ rest)
  = Some [chan; digits].
Proof.
  intros Hsub1 Hsub2 Hch1 Hch2 Hd1 Hd2 Hrest.
  unfold re_match, permalink_pattern, permalink.
  rewrite <- !app_assoc.
  rewrite run_seq, run_lit_app, run_seq.
  apply run_plus_longest; [assumption|assumption|reflexivity|].
  rewrite run_seq, run_lit_app, run_seq.
  apply run_group_plus; [assumption|assumption|exact eq_refl|].
  rewrite run_seq, run_lit_app.
  apply run_group_plus; try assumption.
  reflexivity.
Qed.

Lemma re_search_cons (r : regex) (c : char) (s : pystr) :
  re_search r (c :: s) =
  match re_match r (c :: s) with
  | Some caps => Some caps
  | None => re_search r s
  end.
Proof. reflexivity. Qed.

Lemma re_search_here (r : regex) (s : pystr) (caps : captures) :
  re_match r s = Some caps -> re_search r s = Some caps.
Proof. intros H. destruct s; simpl; now rewrite H. Qed.

(** A match of [thread_ts=...] has its [=] nine characters on. *)
Lemma thread_match_equals (s : pystr) (caps : captures) :
  re_match thread_pattern s = Some caps -> nth_error s 9 = Some 61%N.
Proof.
  unfold re_match, thread_pattern. rewrite run_seq. cbn [run].
  destruct (match_lit (lit "thread_ts=") s) as [s'|] eqn:E; [|discriminate].
  apply match_lit_Some in E. now subst.
Qed.

(** The search passes over text without [=]. *)
Lemma thread_search_skip (a w T : pystr) :
  forallb not_equals (a ++ w) = true -> length w = 9 ->
  re_search thread_pattern (a ++ w ++ T) = re_search thread_pattern (w ++ T).
Proof.
  intros Hall Hw. induction a as [|c a IH]; [reflexivity|].
  change ((c :: a) ++ w ++ T) with (c :: a ++ w ++ T).
  rewrite re_search_cons.
  destruct (re_match thread_pattern (c :: a ++ w ++ T)) as [caps|] eqn:E.
  - exfalso. apply thread_match_equals in E.
    change (c :: a ++ w ++ T) with ((c :: a) ++ w ++ T) in E.
    rewrite app_assoc in E.
    rewrite nth_error_app1 in E by (rewrite length_app; simpl; lia).
    apply nth_error_In in E.
    rewrite forallb_forall in Hall. now apply Hall in E.
  - apply IH. simpl in Hall. now apply andb_true_iff in Hall.
Qed.

Lemma thread_match_here (ts rest : pystr) :
  ts <> [] -> forallb digit_or_dot ts = true -> ends_run digit_or_dot rest ->
  re_match thread_pattern (lit "thread_ts=" ++ ts ++ rest) = Some [ts].
Proof.
  intros H1 H2 H3. unfold re_match, thread_pattern.
  rewrite run_seq, run_lit_app.
  now apply run_group_plus.
Qed.

Lemma upper_or_digit_not_equals (c : char) :
  upper_or_digit c = true -> not_equals c = true.
Proof.
  unfold upper_or_digit, is_ascii_upper, is_ascii_digit, not_equals.
  destruct (N.eqb_spec c 61) as [->|]; [discriminate|reflexivity].
Qed.

Lemma ascii_digit_not_equals (c : char) :
  is_ascii_digit c = true -> not_equals c = true.
Proof.
  unfold is_ascii_digit, not_equals.
  destruct (N.eqb_spec c 61) as [->|]; [discriminate|reflexivity].
Qed.

Lemma host_char_not_equals (c : char) : host_char c = true -> not_equals c = true.
Proof. unfold host_char. now intros [_ H]%andb_true_iff. Qed.

Lemma host_char_not_slash (c : char) : host_char c = true -> not_slash c = true.
Proof. unfold host_char. now intros [H _]%andb_true_iff. Qed.

(** The first [thread_ts=] of a permalink with that query is the query's. *)
Lemma thread_search_permalink (sub chan digits ts rest : pystr) :
  forallb host_char sub = true -> forallb upper_or_digit chan = true ->
  forallb is_ascii_digit digits = true ->
  ts <> [] -> forallb digit_or_dot ts = true -> ends_run digit_or_dot rest ->
  re_search thread_pattern
    (permalink sub chan digits ++ lit "?thread_ts=" ++ ts ++ rest) = Some [ts].
Proof.
  intros Hs Hc Hd Ht1 Ht2 Hr.
  change (lit "?thread_ts=") with (lit "?" ++ lit "thread_ts" ++ lit "=").
  rewrite <- !app_assoc.
  rewrite (app_assoc (permalink sub chan digits) (lit "?")).
  rewrite thread_search_skip.
  - apply re_search_here. rewrite app_assoc.
    now apply thread_match_here.
  - unfold permalink. rewrite !forallb_app.
    rewrite (forallb_weaken _ _ _ host_char_not_equals Hs).
    rewrite (forallb_weaken _ _ _ upper_or_digit_not_equals Hc).
    rewrite (forallb_weaken _ _ _ ascii_digit_not_equals Hd).
    reflexivity.
  - reflexivity.
Qed.

End UrlFacts.

(** The resolver on a permalink: the two groups, sliced. *)
Lemma parse_slack_url_shape (nd : char -> bool) (sub chan digits rest : pystr) :
  sub <> [] -> forallb Re.not_slash sub = true ->
  chan <> [] -> forallb Re.upper_or_digit chan = true ->
  digits <> [] -> forallb Re.is_ascii_digit digits = true ->
  Re.ends_run (Re.unicode_digit nd) rest ->
  exists th,
    parse_slack_url nd (permalink sub chan digits ++ rest) =
    Some {| channel_id := chan;
            message_ts := slice_until_last 6 digits ++ lit "." ++ slice_last 6 digits;
            thread_ts := th |}.
Proof.
  intros Hs1 Hs2 Hc1 Hc2 Hd1 Hd2 Hr. unfold parse_slack_url.
  rewrite permalink_match; try assumption.
  - eexists. reflexivity.
  - revert Hd2. apply ReFacts.forallb_weaken, ReFacts.ascii_digit_unicode.
Qed.

(** C3: a permalink [https://<sub>.slack.com/archives/<CHANNEL>/p<DIGITS>]
    with an upper-case alphanumeric channel and a run of at least seven digits
    (written [ipart ++ frac] with six digits in [frac]) resolves to the
    channel [<CHANNEL>] and the timestamp [ipart.frac]: all digits but the last
    six, a point, the last six. Whatever follows the digit run ([rest]: nothing,
    or a query string) does not change that. An instance is the permalink
    [.../archives/C0123456789/p1700000000123456]. *)
Theorem parse_slack_url_permalink
    (nd : char -> bool) (sub chan ipart frac rest : pystr) :
  sub <> [] -> forallb Re.not_slash sub = true ->
  chan <> [] -> forallb Re.upper_or_digit chan = true ->
  forallb Re.is_ascii_digit (ipart ++ frac) = true ->
  ipart <> [] -> length frac = 6 ->
  Re.ends_run (Re.unicode_digit nd) rest ->
  exists r,
    parse_slack_url nd (permalink sub chan (ipart ++ frac) ++ rest) = Some r /\
    channel_id r = chan /\
    message_ts r = ipart ++ lit "." ++ frac.
Proof.
  intros Hs1 Hs2 Hc1 Hc2 Hd Hi Hf Hr.
  destruct (parse_slack_url_shape nd sub chan (ipart ++ frac) rest) as [th E];
    try assumption.
  { destruct ipart; [congruence|discriminate]. }
  eexists. split; [exact E|]. split; [reflexivity|]. simpl.
  unfold slice_until_last, slice_last.
  rewrite length_app, Hf, Nat.add_sub.
  rewrite firstn_app, Nat.sub_diag, firstn_all, skipn_app, Nat.sub_diag, skipn_all.
  simpl. now rewrite app_nil_r.
Qed.

Lemma parse_slack_url_permalink_example :
  exists r,
    parse_slack_url (fun _ => false)
      (lit "https://workspace.slack.com/archives/C0123456789/p1700000000123456")
    = Some r /\
    channel_id r = lit "C0123456789" /\
    message_ts r = lit "1700000000.123456".
Proof.
  exact (parse_slack_url_permalink (fun _ => false)
           (lit "workspace") (lit "C0123456789") (lit "1700000000") (lit "123456") []
           ltac:(discriminate) eq_refl ltac:(discriminate) eq_refl eq_refl
           ltac:(discriminate) eq_refl I).
Defined.

(** C1, as the code has it: a digit run of fewer than seven digits is not
    rejected. The pattern's [\d+] takes any run of one digit or more, the only
    failure of the resolver is [None] for a text that does not match the
    pattern, and for a short run [raw_ts[:-6]] is empty: the result has the
    channel and the timestamp [.<DIGITS>], with an empty integer part (and no
    sign). *)
Theorem parse_slack_url_short_run
    (nd : char -> bool) (sub chan digits rest : pystr) :
  sub <> [] -> forallb Re.not_slash sub = true ->
  chan <> [] -> forallb Re.upper_or_digit chan = true ->
  digits <> [] -> forallb Re.is_ascii_digit digits = true ->
  length digits < 7 ->
  Re.ends_run (Re.unicode_digit nd) rest ->
  exists r,
    parse_slack_url nd (permalink sub chan digits ++ rest) = Some r /\
    channel_id r = chan /\
    message_ts r = lit "." ++ digits.
Proof.
  intros Hs1 Hs2 Hc1 Hc2 Hd1 Hd2 Hlen Hr.
  destruct (parse_slack_url_shape nd sub chan digits rest) as [th E];
    try assumption.
  eexists. split; [exact E|]. split; [reflexivity|]. simpl.
  destruct (slice_short 6 digits) as [-> ->]; [lia|reflexivity].
Qed.

Lemma parse_slack_url_short_run_example :
  exists r,
    parse_slack_url (fun _ => false)
      (lit "https://team.slack.com/archives/C1/p12345?x=1") = Some r /\
    channel_id r = lit "C1" /\
    message_ts r = lit ".12345".
Proof.
  exact (parse_slack_url_short_run (fun _ => false)
           (lit "team") (lit "C1") (lit "12345") (lit "?x=1")
           ltac:(discriminate) eq_refl ltac:(discriminate) eq_refl
           ltac:(discriminate) eq_refl ltac:(simpl; lia) eq_refl).
Defined.

(** C1 as stated fails: the permalink [https://team.slack.com/archives/C1/p12345]
    has a run of five digits, and the resolver returns a result, whatever the
    interpreter's digit table, whose timestamp [.12345] has no integer part. *)
Lemma parse_slack_url_short_run_accepted :
  exists r,
    (forall nd,
       parse_slack_url nd (lit "https://team.slack.com/archives/C1/p12345") = Some r) /\
    message_ts r = lit ".12345" /\
    slice_until_last 6 (lit "12345") = [].
Proof.
  eexists. split; [intros nd; vm_compute; reflexivity|]. split; reflexivity.
Qed.

(** C7: a permalink followed by the query [?thread_ts=<TS>], [<TS>] a
    dotted-decimal timestamp (any text of digits and points), resolves with
    [thread_ts] that very text. The host name is host-name text (no [=]);
    after [<TS>] the query ends or goes on ([&cid=...]). *)
Theorem parse_slack_url_thread_ts
    (nd : char -> bool) (sub chan digits ts rest : pystr) :
  sub <> [] -> forallb host_char sub = true ->
  chan <> [] -> forallb Re.upper_or_digit chan = true ->
  digits <> [] -> forallb Re.is_ascii_digit digits = true ->
  ts <> [] -> forallb Re.digit_or_dot ts = true ->
  Re.ends_run Re.digit_or_dot rest ->
  parse_slack_url nd (permalink sub chan digits ++ lit "?thread_ts=" ++ ts ++ rest)
  = Some {| channel_id := chan;
            message_ts := slice_until_last 6 digits ++ lit "." ++ slice_last 6 digits;
            thread_ts := Some ts |}.
Proof.
  intros Hs1 Hs2 Hc1 Hc2 Hd1 Hd2 Ht1 Ht2 Hr. unfold parse_slack_url.
  rewrite permalink_match; try assumption; try exact eq_refl.
  - rewrite thread_search_permalink by assumption.
    replace (contains _ _) with true; [reflexivity|].
    symmetry. change (lit "?thread_ts=") with (lit "?" ++ lit "thread_ts=").
    rewrite <- app_assoc, (app_assoc (permalink sub chan digits)).
    apply contains_app.
  - revert Hs2. apply ReFacts.forallb_weaken, host_char_not_slash.
  - revert Hd2. apply ReFacts.forallb_weaken, ReFacts.ascii_digit_unicode.
Qed.

Lemma parse_slack_url_thread_ts_example :
  parse_slack_url (fun _ => false)
    (lit "https://workspace.slack.com/archives/C0123456789/p1700000000123456?thread_ts=1690000000.111111")
  = Some {| channel_id := lit "C0123456789";
            message_ts := lit "1700000000.123456";
            thread_ts := Some (lit "1690000000.111111") |}.
Proof.
  exact (parse_slack_url_thread_ts (fun _ => false)
           (lit "workspace") (lit "C0123456789") (lit "1700000000123456")
           (lit "1690000000.111111") []
           ltac:(discriminate) eq_refl ltac:(discriminate) eq_refl
           ltac:(discriminate) eq_refl ltac:(discriminate) eq_refl I).
Defined.

Example parse_docstring_url :
  parse_slack_url (fun _ => false)
    (lit "https://workspace.slack.com/archives/C05AZF69J9Z/p1769774454630549?thread_ts=1769174779.798959&cid=C05AZF69J9Z")
  = Some {| channel_id := lit "C05AZF69J9Z";
            message_ts := lit "1769774454.630549";
            thread_ts := Some (lit "1769174779.798959") |}.
Proof. vm_compute. reflexivity. Qed.

(** ** Binary64 arithmetic *)

Module PyFloatFacts.
Import PyFloat.
Local Open Scope Z_scope.

Lemma half_even_scale (c x d : Z) :
  0 < c -> 0 < d -> half_even (c * x) (c * d) = half_even x d.
Proof.
  intros Hc Hd. unfold half_even.
  rewrite Z.div_mul_cancel_l, Z.mul_mod_distr_l by lia.
  replace (c * d <? 2 * (c * (x mod d))) with (d <? 2 * (x mod d))
    by (destruct (Z.ltb_spec d (2 * (x mod d))), (Z.ltb_spec (c * d) (2 * (c * (x mod d))));
        try reflexivity; nia).
  replace (2 * (c * (x mod d)) =? c * d) with (2 * (x mod d) =? d)
    by (destruct (Z.eqb_spec (2 * (x mod d)) d), (Z.eqb_spec (2 * (c * (x mod d))) (c * d));
        try reflexivity; nia).
  reflexivity.
Qed.

Lemma half_even_one (x : Z) : half_even x 1 = x.
Proof.
  unfold half_even. rewrite Z.div_1_r, Z.mod_1_r. reflexivity.
Qed.

(** A multiple of the denominator needs no rounding. *)
Lemma half_even_exact (x d : Z) : 0 < d -> half_even (x * d) d = x.
Proof.
  intros Hd. unfold half_even.
  rewrite Z.div_mul, Z.mod_mul by lia.
  destruct (Z.ltb_spec d (2 * 0)); [lia|].
  destruct (Z.eqb_spec (2 * 0) d); [lia|]. reflexivity.
Qed.

Lemma log2_below (n : Z) : 0 < n -> n < 2 ^ 53 -> 0 <= Z.log2 n <= 52.
Proof.
  intros H0 H. split; [apply Z.log2_nonneg|].
  apply Z.log2_lt_pow2 in H; lia.
Qed.

(** Rounding keeps a number that fits 53 bits above the subnormal range. *)
Lemma round_fits (m e : Z) :
  0 < Z.abs m ->
  -1074 <= Z.log2 (Z.abs m) + 1 + e - 53 <= Z.min e 0 ->
  round m e =
  Some {| mant := Z.sgn m * (Z.abs m * 2 ^ (e - (Z.log2 (Z.abs m) + 1 + e - 53)));
          expo := Z.log2 (Z.abs m) + 1 + e - 53 |}.
Proof.
  intros Ha He. unfold round.
  set (a := Z.abs m) in *. set (e' := Z.log2 a + 1 + e - 53) in *.
  rewrite Z.max_l by lia.
  destruct (Z.leb_spec e' e); [|lia].
  destruct (Z.leb_spec 0 e'); [|reflexivity].
  assert (e' = 0) as E0 by lia. rewrite E0 in *.
  rewrite Z.sub_0_r, Z.pow_0_r, Z.mul_1_r. simpl andb.
  destruct (Z.leb_spec (2 ^ 1024) (a * 2 ^ e)); [exfalso|reflexivity].
  assert (a < 2 ^ (Z.succ (Z.log2 a))) by (apply Z.log2_spec; lia).
  assert (0 <= Z.log2 a) by apply Z.log2_nonneg.
  assert (a * 2 ^ e < 2 ^ 53).
  { replace 53 with (Z.succ (Z.log2 a) + e) by lia.
    rewrite Z.pow_add_r by lia.
    apply Z.mul_lt_mono_pos_r; [apply Z.pow_pos_nonneg; lia|assumption]. }
  assert (2 ^ 53 < 2 ^ 1024) by (apply Z.pow_lt_mono_r; lia).
  lia.
Qed.

Lemma round_scaled (n s : Z) :
  0 < n < 2 ^ 53 -> 0 <= s <= 1000 -> round n (- s) = Some (scaled n s).
Proof.
  intros Hn Hs. pose proof (log2_below n ltac:(lia) ltac:(lia)) as HL.
  rewrite round_fits; rewrite ?Z.abs_eq by lia; try lia.
  unfold scaled. rewrite Z.sgn_pos by lia. do 2 f_equal; [|lia].
  rewrite Z.mul_1_l. do 2 f_equal. lia.
Qed.

Lemma scaled_mant_log2 (n : Z) :
  0 < n < 2 ^ 53 -> Z.log2 (n * 2 ^ (52 - Z.log2 n)) = 52.
Proof.
  intros Hn. pose proof (log2_below n ltac:(lia) ltac:(lia)).
  rewrite Z.log2_mul_pow2 by lia. lia.
Qed.

Lemma scaled_mant_pos (n : Z) : 0 < n < 2 ^ 53 -> 0 < n * 2 ^ (52 - Z.log2 n).
Proof.
  intros Hn. pose proof (log2_below n ltac:(lia) ltac:(lia)).
  apply Z.mul_pos_pos; [lia|apply Z.pow_pos_nonneg; lia].
Qed.

Lemma div_1024_scaled (n s : Z) :
  0 < n < 2 ^ 53 -> 0 <= s <= 1000 -> div_1024 (scaled n s) = scaled n (s + 10).
Proof.
  intros Hn Hs. pose proof (log2_below n ltac:(lia) ltac:(lia)) as HL.
  pose proof (scaled_mant_pos n Hn) as Hp.
  unfold div_1024. cbn [mant expo scaled].
  rewrite round_fits; rewrite ?Z.abs_eq, ?scaled_mant_log2 by lia; try lia.
  unfold scaled. rewrite Z.sgn_pos by lia. f_equal; [|lia].
  rewrite Z.mul_1_l.
  replace (Z.log2 n - 52 - s - 10 - (52 + 1 + (Z.log2 n - 52 - s - 10) - 53)) with 0 by lia.
  now rewrite Z.pow_0_r, Z.mul_1_r.
Qed.

Lemma lt_int_scaled (n s k : Z) :
  0 < n < 2 ^ 53 -> 0 <= s -> 0 <= k ->
  lt_int (scaled n s) (2 ^ k) = (n <? 2 ^ (k + s)).
Proof.
  intros Hn Hs Hk. pose proof (log2_below n ltac:(lia) ltac:(lia)) as HL.
  unfold lt_int. cbn [mant expo scaled].
  destruct (Z.leb_spec 0 (Z.log2 n - 52 - s)).
  - replace (Z.log2 n - 52 - s) with 0 by lia.
    replace (52 - Z.log2 n) with 0 by lia.
    replace s with 0 by lia.
    now rewrite Z.pow_0_r, !Z.mul_1_r, Z.add_0_r.
  - replace (- (Z.log2 n - 52 - s)) with (s + (52 - Z.log2 n)) by lia.
    rewrite (Z.pow_add_r 2 s), Z.mul_assoc, <- Z.pow_add_r by lia.
    assert (0 < 2 ^ (52 - Z.log2 n)) by (apply Z.pow_pos_nonneg; lia).
    destruct (Z.ltb_spec n (2 ^ (k + s))),
             (Z.ltb_spec (n * 2 ^ (52 - Z.log2 n)) (2 ^ (k + s) * 2 ^ (52 - Z.log2 n)));
      try reflexivity; nia.
Qed.

Lemma tenths_scaled (n s : Z) :
  0 < n < 2 ^ 53 -> 0 <= s -> tenths (scaled n s) = half_even (n * 10) (2 ^ s).
Proof.
  intros Hn Hs. pose proof (log2_below n ltac:(lia) ltac:(lia)) as HL.
  pose proof (scaled_mant_pos n Hn) as Hp.
  unfold tenths. cbn [mant expo scaled]. rewrite Z.abs_eq by lia.
  destruct (Z.leb_spec 0 (Z.log2 n - 52 - s)).
  - replace (Z.log2 n - 52 - s) with 0 by lia.
    replace (52 - Z.log2 n) with 0 by lia.
    replace s with 0 by lia.
    now rewrite !Z.pow_0_r, !Z.mul_1_r, half_even_one.
  - replace (- (Z.log2 n - 52 - s)) with ((52 - Z.log2 n) + s) by lia.
    rewrite Z.pow_add_r by lia.
    replace (n * 2 ^ (52 - Z.log2 n) * 10) with (2 ^ (52 - Z.log2 n) * (n * 10)) by ring.
    apply half_even_scale; apply Z.pow_pos_nonneg; lia.
Qed.

Lemma format_1f_scaled (n s : Z) :
  0 < n < 2 ^ 53 -> 0 <= s -> format_1f (scaled n s) = one_decimal n (2 ^ s).
Proof.
  intros Hn Hs. pose proof (scaled_mant_pos n Hn) as Hp.
  unfold format_1f, one_decimal. rewrite tenths_scaled by assumption.
  rewrite Z.abs_eq by lia.
  cbn [mant scaled].
  destruct (Z.ltb_spec (n * 2 ^ (52 - Z.log2 n)) 0), (Z.ltb_spec n 0); try lia.
  reflexivity.
Qed.

(** [float(n)] is [n] itself while [n] fits 53 bits. *)
Lemma of_int_format (n : Z) :
  - 2 ^ 53 < n < 2 ^ 53 ->
  bind (of_int n) (fun x => Ok (format_1f x)) = Ok (one_decimal n 1).
Proof.
  intros Hn. unfold of_int.
  destruct (Z.lt_trichotomy n 0) as [Hneg|[->|Hpos]].
  - pose proof (log2_below (- n) ltac:(lia) ltac:(lia)) as HL.
    rewrite round_fits; rewrite ?Z.abs_neq by lia; try lia.
    cbn [bind]. f_equal. unfold format_1f, one_decimal. cbn [mant expo].
    rewrite Z.sgn_neg by lia.
    assert (0 < - n * 2 ^ (0 - (Z.log2 (- n) + 1 + 0 - 53)))
      by (apply Z.mul_pos_pos; [lia|apply Z.pow_pos_nonneg; lia]).
    destruct (Z.ltb_spec (-1 * (- n * 2 ^ (0 - (Z.log2 (- n) + 1 + 0 - 53)))) 0),
             (Z.ltb_spec n 0); try lia.
    f_equal. rewrite Z.abs_neq by lia.
    pose proof (tenths_scaled (- n) 0 ltac:(lia) ltac:(lia)) as T.
    unfold tenths, scaled in T. cbn [mant expo] in T.
    unfold tenths. cbn [mant expo].
    replace (Z.abs (-1 * (- n * 2 ^ (0 - (Z.log2 (- n) + 1 + 0 - 53)))))
      with (Z.abs (- n * 2 ^ (52 - Z.log2 (- n)))).
    2:{ rewrite Z.abs_eq, Z.abs_neq by lia.
        replace (0 - (Z.log2 (- n) + 1 + 0 - 53)) with (52 - Z.log2 (- n)) by lia. lia. }
    replace (Z.log2 (- n) + 1 + 0 - 53) with (Z.log2 (- n) - 52 - 0) by lia.
    exact T.
  - reflexivity.
  - change (round n 0) with (round n (- 0)).
    rewrite round_scaled by lia. cbn [bind]. f_equal.
    now rewrite format_1f_scaled by lia.
Qed.

(** *** Sizes beyond 53 bits *)

Lemma half_even_bounds (num den : Z) :
  0 < den -> num / den <= half_even num den <= num / den + 1.
Proof.
  intros Hd. unfold half_even.
  destruct ((den <? 2 * (num mod den)) || _); lia.
Qed.

Lemma round_large (n : Z) :
  2 ^ 53 <= n ->
  round n (-10) = None \/
  exists x, round n (-10) = Some x /\ normal53 x /\ -9 <= expo x.
Proof.
  intros Hn. assert (0 < n) as Hpos by lia.
  assert (53 <= Z.log2 n) as HL by (apply Z.log2_le_pow2; lia).
  destruct (Z.log2_spec n Hpos) as [Hlo Hhi].
  unfold round. rewrite Z.abs_eq, Z.sgn_pos by lia.
  set (L := Z.log2 n) in *.
  rewrite Z.max_l by lia.
  destruct (Z.leb_spec (L + 1 + -10 - 53) (-10)); [lia|].
  replace (L + 1 + -10 - 53 - -10) with (L - 52) by lia.
  set (q := half_even n (2 ^ (L - 52))).
  assert (0 < 2 ^ (L - 52)) as Hden by (apply Z.pow_pos_nonneg; lia).
  assert (2 ^ 52 <= n / 2 ^ (L - 52) < 2 ^ 53) as Hq.
  { split.
    - apply Z.div_le_lower_bound; [lia|].
      rewrite <- Z.pow_add_r by lia. now replace (L - 52 + 52) with L by lia.
    - apply Z.div_lt_upper_bound; [lia|].
      rewrite <- Z.pow_add_r by lia. now replace (L - 52 + 53) with (Z.succ L) by lia. }
  pose proof (half_even_bounds n (2 ^ (L - 52)) Hden) as Hb. fold q in Hb.
  destruct ((0 <=? L + 1 + -10 - 53) && (2 ^ 1024 <=? q * 2 ^ (L + 1 + -10 - 53))) eqn:Hover;
    [now left|right].
  eexists. split; [reflexivity|]. unfold normal53. cbn [mant expo].
  rewrite Z.mul_1_l. split; [|lia]. split; [lia|].
  apply andb_false_iff in Hover as [H1|H1].
  - left. apply Z.leb_gt in H1. lia.
  - right. now apply Z.leb_gt in H1.
Qed.

Lemma log2_normal (a : Z) : 2 ^ 52 <= a < 2 ^ 53 -> Z.log2 a = 52.
Proof. intros H. apply Z.log2_unique; [lia|exact H]. Qed.

Lemma div_1024_normal (x : float) :
  normal53 x -> -1000 <= expo x ->
  normal53 (div_1024 x) /\ expo x - 10 <= expo (div_1024 x).
Proof.
  intros [Hm Hr] He. unfold div_1024, round.
  rewrite Z.abs_eq, Z.sgn_pos by lia.
  destruct (Z.eq_dec (mant x) (2 ^ 53)) as [E|E].
  - rewrite E. change (Z.log2 (2 ^ 53)) with 53.
    rewrite Z.max_l by lia.
    destruct (Z.leb_spec (53 + 1 + (expo x - 10) - 53) (expo x - 10)); [lia|].
    replace (53 + 1 + (expo x - 10) - 53 - (expo x - 10)) with 1 by lia.
    change (half_even (2 ^ 53) (2 ^ 1)) with (2 ^ 52).
    replace (53 + 1 + (expo x - 10) - 53) with (expo x - 9) by lia.
    assert ((0 <=? expo x - 9) && (2 ^ 1024 <=? 2 ^ 52 * 2 ^ (expo x - 9)) = false) as ->.
    { apply andb_false_iff. destruct (Z.leb_spec 0 (expo x - 9)); [right|now left].
      apply Z.leb_gt. destruct Hr as [Hr|Hr]; [lia|]. rewrite E in Hr.
      rewrite <- Z.pow_add_r in * by lia.
      apply Z.pow_lt_mono_r_iff in Hr; [|lia|lia].
      apply Z.pow_lt_mono_r; lia. }
    cbv beta iota. unfold normal53. cbn [mant expo]. rewrite Z.mul_1_l. split; [|lia].
    split; [split; [lia|apply Z.pow_le_mono_r; lia]|].
    destruct (Z.ltb_spec (expo x - 9) 0); [now left|right].
    destruct Hr as [Hr|Hr]; [lia|]. rewrite E in Hr.
    rewrite <- Z.pow_add_r in * by lia.
    apply Z.pow_lt_mono_r_iff in Hr; [|lia|lia].
    apply Z.pow_lt_mono_r; lia.
  - rewrite (log2_normal (mant x)) by lia.
    rewrite Z.max_l by lia.
    destruct (Z.leb_spec (52 + 1 + (expo x - 10) - 53) (expo x - 10)); [|lia].
    replace (expo x - 10 - (52 + 1 + (expo x - 10) - 53)) with 0 by lia.
    replace (52 + 1 + (expo x - 10) - 53) with (expo x - 10) by lia.
    rewrite Z.pow_0_r, Z.mul_1_r.
    assert (0 <= expo x - 10 -> mant x * 2 ^ (expo x - 10) < 2 ^ 1024) as Hsmall.
    { intros H0. destruct Hr as [Hr|Hr]; [lia|].
      assert (2 ^ (expo x - 10) <= 2 ^ expo x) by (apply Z.pow_le_mono_r; lia).
      nia. }
    assert ((0 <=? expo x - 10) && (2 ^ 1024 <=? mant x * 2 ^ (expo x - 10)) = false) as ->.
    { apply andb_false_iff. destruct (Z.leb_spec 0 (expo x - 10)); [right|now left].
      apply Z.leb_gt. auto. }
    cbv beta iota. unfold normal53. cbn [mant expo]. rewrite Z.mul_1_l. split; [|lia].
    split; [lia|].
    destruct (Z.ltb_spec (expo x - 10) 0); [now left|right]. apply Hsmall. lia.
Qed.

Lemma lt_int_normal (x : float) :
  normal53 x -> -42 <= expo x -> lt_int x 1024 = false.
Proof.
  intros [Hm _] He. unfold lt_int.
  assert (2 ^ 10 <= 2 ^ 52) by (apply Z.pow_le_mono_r; lia).
  change 1024 with (2 ^ 10).
  destruct (Z.leb_spec 0 (expo x)).
  - apply Z.ltb_ge.
    pose proof (Z.pow_pos_nonneg 2 (expo x) ltac:(lia) ltac:(lia)). nia.
  - apply Z.ltb_ge. rewrite <- Z.pow_add_r by lia.
    assert (2 ^ (10 + - expo x) <= 2 ^ 52) by (apply Z.pow_le_mono_r; lia). lia.
Qed.

Example round_agrees_with_ieee :
  forallb (fun p => agrees_with_ieee (fst p) (snd p))
    [(0, 0); (1, 0); (-5, 0); (1023, 0); (1024, -10); (1536, -10);
     (2 ^ 53, 0); (2 ^ 53 + 1, 0); (2 ^ 53 + 3, 0); (- (2 ^ 53 + 1), 0);
     (2 ^ 60 + 2 ^ 7, 0); (2 ^ 60 + 2 ^ 7 + 1, 0); (2 ^ 60 + 3 * 2 ^ 7, 0);
     (12345678901234567890123, -10); (987654321987654321, -10);
     (2 ^ 1024, 0); (2 ^ 1024 - 1, 0); (2 ^ 1024 - 2 ^ 970, 0);
     (2 ^ 1024 - 2 ^ 970 - 1, 0); (- 2 ^ 1024, 0);
     (2 ^ 1034, -10); (2 ^ 1034 - 1, -10); (2 ^ 1033, -10);
     (1, -1074); (1, -1075); (3, -1075); (3, -1076); (2 ^ 53 + 1, -1080)]
  = true.
Proof. vm_compute. reflexivity. Qed.

End PyFloatFacts.

(** ** Sizes *)

Section SizeFacts.
Import PyFloat PyFloatFacts.
Local Open Scope Z_scope.

Lemma unit_index_cases (n : Z) :
  unit_index n =
  if n <? 2 ^ 10 then 0%nat else if n <? 2 ^ 20 then 1%nat
  else if n <? 2 ^ 30 then 2%nat else if n <? 2 ^ 40 then 3%nat else 4%nat.
Proof. reflexivity. Qed.

(** One turn of the loop on a float that is [n / 2^s]. *)
Lemma format_units_step (unit : pystr) (units : list pystr) (n s : Z) :
  0 < n < 2 ^ 53 -> 0 <= s <= 1000 ->
  format_units (unit :: units) (Float (scaled n s)) =
  if n <? 2 ^ (10 + s) then Ok (one_decimal n (2 ^ s) ++ unit)
  else format_units units (Float (scaled n (s + 10))).
Proof.
  intros Hn Hs. cbn [format_units lt_1024 divide_by_1024 format_number_1f bind].
  change 1024 with (2 ^ 10).
  rewrite lt_int_scaled, format_1f_scaled, div_1024_scaled by lia.
  reflexivity.
Qed.

Lemma format_units_int (unit : pystr) (units : list pystr) (n : Z) :
  format_units (unit :: units) (Int n) =
  if n <? 1024 then bind (of_int n) (fun x => Ok (PyFloat.format_1f x ++ unit))
  else bind (int_div_1024 n) (fun x => format_units units (Float x)).
Proof.
  cbn [format_units lt_1024 divide_by_1024 format_number_1f].
  destruct (n <? 1024); [destruct (of_int n)|destruct (int_div_1024 n)]; reflexivity.
Qed.

Lemma format_units_last (n s : Z) :
  0 < n < 2 ^ 53 -> 0 <= s ->
  format_units [] (Float (scaled n s)) = Ok (one_decimal n (2 ^ s) ++ lit "TB").
Proof.
  intros Hn Hs. cbn [format_units format_number_1f bind].
  now rewrite format_1f_scaled by lia.
Qed.

(** Below 1024 the loop returns at once, in bytes. *)
Lemma format_file_size_bytes (n : Z) :
  n < 1024 ->
  format_file_size n =
  bind (of_int n) (fun x => Ok (PyFloat.format_1f x ++ lit "B")).
Proof.
  intros Hn. unfold format_file_size.
  cbn [format_units lt_1024 format_number_1f].
  destruct (Z.ltb_spec n 1024); [|lia].
  destruct (of_int n); reflexivity.
Qed.

Lemma format_file_size_exact (n : Z) :
  - 2 ^ 53 < n < 2 ^ 53 ->
  format_file_size n =
  Ok (one_decimal n (1024 ^ Z.of_nat (unit_index n)) ++ nth (unit_index n) unit_names []).
Proof.
  intros Hn. rewrite unit_index_cases.
  destruct (Z.ltb_spec n (2 ^ 10)) as [H0|H0].
  - rewrite format_file_size_bytes by exact H0.
    pose proof (of_int_format n Hn) as E.
    destruct (of_int n) as [x|e]; cbn [bind] in *; [|discriminate].
    injection E as ->. reflexivity.
  - unfold format_file_size. rewrite format_units_int.
    destruct (Z.ltb_spec n 1024); [change 1024 with (2 ^ 10) in *; lia|].
    unfold int_div_1024. change (-10) with (- (10)).
    rewrite round_scaled by lia. cbn [bind].
    rewrite !format_units_step, format_units_last by lia.
    change (10 + 10) with 20. change (20 + 10) with 30. change (30 + 10) with 40.
    change (10 + 20) with 30. change (10 + 30) with 40.
    destruct (n <? 2 ^ 20); [reflexivity|].
    destruct (n <? 2 ^ 30); [reflexivity|].
    destruct (n <? 2 ^ 40); reflexivity.
Qed.

(** From [2^53] on every size is shown in TB, unless the first division is
    out of the range of [float]. *)
Lemma format_file_size_large (n : Z) :
  2 ^ 53 <= n ->
  format_file_size n =
  bind (int_div_1024 n) (fun x =>
    Ok (PyFloat.format_1f (div_1024 (div_1024 (div_1024 x))) ++ lit "TB")).
Proof.
  intros Hn. unfold format_file_size. rewrite format_units_int.
  destruct (Z.ltb_spec n 1024); [change (2 ^ 53) with 9007199254740992 in Hn; lia|].
  unfold int_div_1024.
  destruct (round_large n Hn) as [->|[x [-> [Hx He]]]]; [reflexivity|].
  cbn [bind].
  destruct (div_1024_normal x Hx ltac:(lia)) as [Hx1 He1].
  destruct (div_1024_normal _ Hx1 ltac:(lia)) as [Hx2 He2].
  destruct (div_1024_normal _ Hx2 ltac:(lia)) as [Hx3 He3].
  cbn [format_units lt_1024 divide_by_1024 format_number_1f bind].
  rewrite !lt_int_normal by (assumption || lia).
  reflexivity.
Qed.

Lemma format_file_size_tera (n : Z) :
  2 ^ 40 <= n ->
  format_file_size n =
  bind (int_div_1024 n) (fun x =>
    Ok (PyFloat.format_1f (div_1024 (div_1024 (div_1024 x))) ++ lit "TB")).
Proof.
  intros Hn. destruct (Z.le_gt_cases (2 ^ 53) n) as [Hbig|Hsmall].
  { now apply format_file_size_large. }
  assert (0 < n < 2 ^ 53) as Hr by (change (2 ^ 40) with 1099511627776 in Hn; lia).
  unfold format_file_size. rewrite format_units_int.
  destruct (Z.ltb_spec n 1024); [change (2 ^ 40) with 1099511627776 in Hn; lia|].
  unfold int_div_1024. change (-10) with (- (10)).
  rewrite round_scaled by lia. cbn [bind].
  rewrite !format_units_step, format_units_last by lia.
  rewrite !div_1024_scaled by lia.
  change (10 + 10) with 20. change (20 + 10) with 30. change (30 + 10) with 40.
  change (10 + 20) with 30. change (10 + 30) with 40.
  assert (2 ^ 20 < 2 ^ 40 /\ 2 ^ 30 < 2 ^ 40) as [? ?] by (split; reflexivity).
  destruct (Z.ltb_spec n (2 ^ 20)); [lia|].
  destruct (Z.ltb_spec n (2 ^ 30)); [lia|].
  destruct (Z.ltb_spec n (2 ^ 40)); [lia|].
  now rewrite format_1f_scaled by lia.
Qed.

End SizeFacts.

Section SizeProperties.
Local Open Scope Z_scope.

(** C5: [format_file_size] steps through B, KB, MB, GB and returns at the
    first of them at which the size, counted in that unit, is below 1024;
    past GB it is TB whatever the value. The number shown is the size in that
    unit to one decimal place (the nearest, ties to even). This is the result
    for every size that binary64 holds exactly (below [2^53] in magnitude),
    and in particular for 0, 1023, 1024 and 1024 * 1024. TB has no cap: every
    size from [1024^4] on, however large, is shown in TB, as the float
    [n / 1024] divided three more times (or the call raises with that first
    division, beyond the range of [float]); [1024^5] is [1024.0TB]. *)
Theorem format_file_size_units :
  (forall n : Z,
     (- 2 ^ 53 < n < 2 ^ 53)%Z ->
     format_file_size n =
     Ok (PyFloat.one_decimal n (1024 ^ Z.of_nat (unit_index n))
         ++ nth (unit_index n) unit_names [])) /\
  (forall n : Z,
     (1024 ^ 4 <= n)%Z ->
     format_file_size n =
     bind (PyFloat.int_div_1024 n) (fun x =>
       Ok (PyFloat.format_1f
             (PyFloat.div_1024 (PyFloat.div_1024 (PyFloat.div_1024 x)))
           ++ lit "TB"))) /\
  format_file_size 0 = Ok (lit "0.0B") /\
  format_file_size 1023 = Ok (lit "1023.0B") /\
  format_file_size 1024 = Ok (lit "1.0KB") /\
  format_file_size (1024 * 1024) = Ok (lit "1.0MB") /\
  format_file_size (1024 ^ 5) = Ok (lit "1024.0TB").
Proof.
  split; [exact format_file_size_exact|].
  split; [exact format_file_size_tera|].
  repeat split; vm_compute; reflexivity.
Qed.

Lemma format_file_size_units_example :
  format_file_size 1610612736 = Ok (lit "1.5GB").
Proof.
  exact (proj1 format_file_size_units 1610612736%Z
           (conj (eq_refl : (- 2 ^ 53 ?= 1610612736)%Z = Lt)
                 (eq_refl : (1610612736 ?= 2 ^ 53)%Z = Lt))).
Defined.

(** C9, as the code has it: a size below 1024, negative ones and zero
    included, is shown in bytes as [float(n)] to one decimal place, and the
    call raises [OverflowError] when [float(n)] does. While [n] is no less
    than [-2^53] that is the numeral of [n] followed by [.0B]. *)
Theorem format_file_size_below_1024 (n : Z) :
  (n < 1024)%Z ->
  format_file_size n
  = bind (PyFloat.of_int n) (fun x => Ok (PyFloat.format_1f x ++ lit "B")) /\
  ((- 2 ^ 53 <= n)%Z -> format_file_size n = Ok (str_of_int n ++ lit ".0B")).
Proof.
  intros Hn. split; [now apply format_file_size_bytes|].
  intros Hlo. destruct (Z.eq_dec n (- 2 ^ 53)) as [->|Hne].
  { vm_compute. reflexivity. }
  rewrite format_file_size_exact by (change (2 ^ 53)%Z with 9007199254740992%Z in *; lia).
  rewrite unit_index_cases.
  destruct (Z.ltb_spec n (2 ^ 10)); [|change (2 ^ 10)%Z with 1024%Z in *; lia].
  f_equal. unfold PyFloat.one_decimal, PyFloat.show_tenths, str_of_int.
  change (1024 ^ Z.of_nat 0)%Z with 1%Z.
  rewrite PyFloatFacts.half_even_one, Z.div_mul, Z.mod_mul by lia.
  cbn [nth unit_names]. rewrite <- !app_assoc. reflexivity.
Qed.

Lemma format_file_size_below_1024_example :
  format_file_size (-5) = Ok (lit "-5.0B").
Proof.
  exact (proj2 (format_file_size_below_1024 (-5)%Z eq_refl) ltac:(discriminate)).
Defined.

(** C9 as stated fails for sizes far below zero: [-(2^53 + 1)] is shown as
    [-9007199254740992.0B], which is not its numeral, and [-2^1024] is not
    shown at all, the formatting raises [OverflowError]. *)
Lemma format_file_size_negative_large :
  format_file_size (- (2 ^ 53 + 1)) = Ok (lit "-9007199254740992.0B") /\
  str_of_int (- (2 ^ 53 + 1)) = lit "-9007199254740993" /\
  format_file_size (- 2 ^ 1024)
  = Raise (OverflowError (lit "int too large to convert to float")).
Proof. vm_compute. repeat split; reflexivity. Qed.

Example format_file_size_examples :
  map format_file_size [1280; 1536; 2 ^ 53 + 1; 2 ^ 64]%Z
  = map Ok [lit "1.2KB"; lit "1.5KB"; lit "8192.0TB"; lit "16777216.0TB"].
Proof. vm_compute. reflexivity. Qed.

Example format_file_size_overflow :
  format_file_size (2 ^ 1034)
  = Raise (OverflowError (lit "integer division result too large for a float")).
Proof. vm_compute. reflexivity. Qed.

End SizeProperties.

(** ** File extraction *)

Section ExtractFacts.
Implicit Types (st : store) (msg : message) (r : ref).

Lemma tag_file_twice (a b c d : pystr) (f : file) :
  tag_file a b (tag_file c d f) = tag_file a b f.
Proof. reflexivity. Qed.

Lemma tag_each_list msg (fs : list ref) st (acc : list ref) :
  (tag_each msg fs st acc).2 = acc ++ fs.
Proof.
  revert st acc. induction fs as [|f fs IH]; intros st acc; simpl.
  - now rewrite app_nil_r.
  - rewrite IH, <- app_assoc. reflexivity.
Qed.

Lemma tag_each_store msg (fs : list ref) st (acc : list ref) r :
  (tag_each msg fs st acc).1 !! r =
  if bool_decide (r ∈ fs)
  then tag_file (owner_tags msg).1 (owner_tags msg).2 <$> st !! r
  else st !! r.
Proof.
  revert st acc. induction fs as [|f fs IH]; intros st acc; simpl.
  - reflexivity.
  - rewrite IH, lookup_alter.
    destruct (decide (f = r)) as [->|Hne].
    + rewrite (bool_decide_eq_true_2 (r ∈ r :: fs)) by apply list_elem_of_here.
      destruct (bool_decide (r ∈ fs)); [|reflexivity].
      destruct (st !! r); reflexivity.
    + destruct (bool_decide_reflect (r ∈ fs)) as [Hin|Hnin].
      * rewrite (bool_decide_eq_true_2 (r ∈ f :: fs))
          by now apply list_elem_of_further.
        reflexivity.
      * rewrite (bool_decide_eq_false_2 (r ∈ f :: fs)); [reflexivity|].
        intros [->|H]%elem_of_cons; [congruence|contradiction].
Qed.

Lemma extract_loop_list (messages : list message) st (acc : list ref) :
  (extract_loop messages st acc).2 = acc ++ concat (map files_of messages).
Proof.
  revert st acc. induction messages as [|msg rest IH]; intros st acc; simpl.
  - now rewrite app_nil_r.
  - pose proof (tag_each_list msg (files_of msg) st acc) as E.
    destruct (tag_each msg (files_of msg) st acc) as [st' acc'].
    simpl in E. subst acc'. rewrite IH, <- app_assoc. reflexivity.
Qed.

(** What the call leaves in memory: every file dict carries the tags of the
    last message that lists it, and is otherwise as before. *)
Lemma extract_loop_store (messages : list message) st (acc : list ref) r :
  (extract_loop messages st acc).1 !! r =
  match last_owner messages r with
  | Some msg => tag_file (owner_tags msg).1 (owner_tags msg).2 <$> st !! r
  | None => st !! r
  end.
Proof.
  revert st acc. induction messages as [|msg rest IH]; intros st acc; simpl.
  - reflexivity.
  - pose proof (tag_each_store msg (files_of msg) st acc r) as E.
    destruct (tag_each msg (files_of msg) st acc) as [st' acc'].
    simpl in E. rewrite IH, E.
    destruct (last_owner rest r) as [m|].
    + destruct (bool_decide (r ∈ files_of msg)); [|reflexivity].
      destruct (st !! r); reflexivity.
    + destruct (bool_decide (r ∈ files_of msg)); reflexivity.
Qed.

Lemma last_owner_lists (messages : list message) r (m : message) :
  last_owner messages r = Some m -> In m messages /\ r ∈ files_of m.
Proof.
  induction messages as [|msg rest IH]; simpl; [discriminate|].
  destruct (last_owner rest r) as [m'|].
  - intros [= <-]. destruct IH as [H1 H2]; auto.
  - destruct (bool_decide_reflect (r ∈ files_of msg)); [|discriminate].
    intros [= <-]. auto.
Qed.



End ExtractFacts.



(** ** Message rendering *)

(** C8: the author shown by [format_message]. The id is the message's
    [user], or else its [bot_id], or else the text [unknown]; the name shown
    is what the cache maps that id to when a cache is given and holds it, and
    the id itself otherwise. It stands in the header line between the time and
    the colon. *)
Theorem format_message_author
    (local_time : pystr -> pystr) (st : store) (msg : message)
    (users_cache : option (gmap pystr pystr)) :
  let user_id :=
    match Msg.user msg, Msg.bot_id msg with
    | Some u, _ => u
    | None, Some b => b
    | None, None => lit "unknown"
    end in
  let shown :=
    match users_cache with
    | Some cache =>
        match cache !! user_id with
        | Some mapped => mapped
        | None => user_id
        end
    | None => user_id
    end in
  author_name msg users_cache = shown /\
  format_message local_time st msg users_cache =
  lit "[" ++ time_str local_time msg ++ lit "] " ++ shown ++
  lit (String ":" (String "010" "  ")) ++ get (Msg.text msg) [] ++
  reaction_str msg ++ files_str st msg.
Proof.
  intros user_id shown.
  assert (author_name msg users_cache = shown) as E.
  { unfold author_name, author_id, shown, user_id.
    destruct (Msg.user msg) as [u|], (Msg.bot_id msg) as [b|];
      destruct users_cache as [cache|]; cbn [get]; try reflexivity;
      case_bool_decide as Hc; subst; rewrite ?lookup_empty; reflexivity. }
  split; [exact E|]. unfold format_message. now rewrite E.
Qed.

Example format_message_bot :
  format_message Utc.shown ∅
    {| Msg.user := None; Msg.bot_id := Some (lit "B42"); Msg.ts := Some (lit "1700000000.000100");
       Msg.text := Some (lit "deployed");
       Msg.reactions := Some [ {| Msg.name := lit "tada"; Msg.count := 2 |} ];
       Msg.files := None |}
    (Some {[ lit "B42" := lit "deploy-bot" ]})
  = lit "[2023-11-14 22:13:20] deploy-bot:" ++ [10%N] ++ lit "  deployed" ++ [10%N]
    ++ lit "  Reactions: :tada: (2)".
Proof. vm_compute. reflexivity. Qed.

(** ** The output stage *)

Section MainFacts.
Variable C : collaborators.
Variable json_dumps : envelope C -> pystr.

(** A loop whose body raises stops at its first turn. *)
Lemma for_each_raise {A : Type} (l : list A) (e : exn) (s : state C) :
  l <> [] -> for_each C l (fun _ => raise C e) s = (Raised e, s).
Proof. destruct l; [congruence|reflexivity]. Qed.

Lemma search_keys_nonempty (other_keys : list pystr) (matches : list message) :
  search_keys other_keys (Some matches) <> [].
Proof. unfold search_keys. destruct other_keys; discriminate. Qed.

Lemma search_keys_length (other_keys : list pystr) (matches : list message) :
  length (search_keys other_keys (Some matches)) = S (length other_keys).
Proof. unfold search_keys. rewrite length_app. simpl. lia. Qed.

(** One turn of the download loop, on the state. *)
Lemma download_loop_cons (a : args) (f : ref) (files : list ref) (success : Z)
    (s : state C) :
  download_loop C a (f :: files) success s =
  let fd := deref (memory s) f in
  let url := or_else (File.url_private_download fd) (File.url_private fd) in
  let name := get (File.name fd) (lit "unnamed") in
  if truthy url then
    match
      download_file C (get url []) (path_join C (Args.output_dir a) name)
        {| memory := memory s; world := world s;
           out := out s ++ [Stdout ((lit "  Downloading: " ++ name ++ lit "...") ++ lit " ")] |}
    with
    | (Normal true, s') =>
        download_loop C a files (success + 1)
          {| memory := memory s'; world := world s';
             out := out s' ++ [Stdout (lit "OK" ++ [10%N])] |}
    | (Normal false, s') =>
        download_loop C a files success
          {| memory := memory s'; world := world s';
             out := out s' ++ [Stdout (lit "FAILED" ++ [10%N])] |}
    | (Raised e, s') => (Raised e, s')
    | (SysExit code, s') => (SysExit code, s')
    end
  else download_loop C a files success s.
Proof.
  cbn [download_loop]. unfold bindM, read_memory, print_then_space, print, write.
  cbv zeta. destruct (truthy _); [|reflexivity].
  destruct (download_file C _ _ _) as [[[]| |] s']; reflexivity.
Qed.

Lemma download_file_memory (url path : pystr) (s : state C) :
  memory (download_file C url path s).2 = memory s.
Proof.
  unfold download_file. destruct (new_request C url); [reflexivity|].
  destruct (transfer C (world s) url path) as [w [e|]]; reflexivity.
Qed.

(** The download loop leaves the file dicts alone. *)
Lemma download_loop_memory (a : args) (files : list ref) (success : Z) (s : state C) :
  memory (download_loop C a files success s).2 = memory s.
Proof.
  revert success s. induction files as [|f files IH]; intros success s; [reflexivity|].
  rewrite download_loop_cons. cbv zeta.
  destruct (truthy _); [|apply IH].
  match goal with |- context [download_file C ?u ?p ?s1] =>
    pose proof (download_file_memory u p s1) as Hm;
    destruct (download_file C u p s1) as [[[]| |] s']
  end; simpl in Hm; rewrite ?IH; exact Hm.
Qed.

(** A file dict with no URL is passed over: nothing is written, nothing is
    fetched, the count stands. *)
Lemma download_loop_skip (a : args) (f : ref) (files : list ref) (success : Z)
    (s : state C) :
  File.url_private_download (deref (memory s) f) = None ->
  File.url_private (deref (memory s) f) = None ->
  download_loop C a (f :: files) success s = download_loop C a files success s.
Proof.
  intros H1 H2. rewrite download_loop_cons. cbv zeta. now rewrite H1, H2.
Qed.

(** The loop over [pre ++ files] is the loop over [pre], then the loop over
    [files] from the count reached. *)
Lemma download_loop_app (a : args) (pre files : list ref) (success : Z) (s : state C) :
  download_loop C a (pre ++ files) success s =
  match download_loop C a pre success s with
  | (Normal n, s') => download_loop C a files n s'
  | (Raised e, s') => (Raised e, s')
  | (SysExit code, s') => (SysExit code, s')
  end.
Proof.
  revert success s. induction pre as [|f pre IH]; intros success s; [reflexivity|].
  change ((f :: pre) ++ files) with (f :: pre ++ files).
  rewrite !download_loop_cons. cbv zeta.
  destruct (truthy _); [|apply IH].
  destruct (download_file C _ _ _) as [[[]| |] s']; try reflexivity; apply IH.
Qed.

Lemma download_loop_skip_middle (a : args) (pre : list ref) (f : ref)
    (post : list ref) (success : Z) (s : state C) :
  File.url_private_download (deref (memory s) f) = None ->
  File.url_private (deref (memory s) f) = None ->
  download_loop C a (pre ++ f :: post) success s =
  download_loop C a (pre ++ post) success s.
Proof.
  intros H1 H2. rewrite !download_loop_app.
  pose proof (download_loop_memory a pre success s) as Hm.
  destruct (download_loop C a pre success s) as [[n| |] s1]; try reflexivity.
  simpl in Hm. apply download_loop_skip; now rewrite Hm.
Qed.

End MainFacts.

(** C10: in the download batch a file record that has neither
    [url_private_download] nor [url_private] is passed over in silence: the
    loop with it is the loop without it (no line written, no download tried,
    no failure reported, the success count as it was), and so is the whole
    batch but for the total of the summary line, which is the length of the
    list and counts the file. A batch of that one file ends with
    [Downloaded 0/1 files.] and reports no failure. *)
Theorem download_batch_skips_missing_url
    (C : collaborators) (a : args) (pre : list ref) (f : ref) (post : list ref)
    (s : state C) :
  File.url_private_download (deref (memory s) f) = None ->
  File.url_private (deref (memory s) f) = None ->
  (forall success : Z,
     download_loop C a (pre ++ f :: post) success s =
     download_loop C a (pre ++ post) success s) /\
  download_all C a (pre ++ f :: post) s =
    bindM C (print C ([10%N] ++ lit "Downloading to: " ++ Args.output_dir a)) (fun _ =>
    bindM C (make_output_dir C a) (fun _ =>
    bindM C (download_loop C a (pre ++ post) 0) (fun success =>
    print C (summary success (S (length (pre ++ post))))))) s /\
  ((mkdir C (world s) (Args.output_dir a)).2 = None ->
   download_all C a [f] s =
   (Normal tt,
    {| memory := memory s;
       world := (mkdir C (world s) (Args.output_dir a)).1;
       out := out s ++
              [Stdout ([10%N] ++ lit "Downloading to: " ++ Args.output_dir a ++ [10%N]);
               Stdout ([10%N] ++ lit "Downloaded 0/1 files." ++ [10%N])] |})).
Proof.
  intros H1 H2. split; [|split].
  - intros success. now apply download_loop_skip_middle.
  - unfold download_all.
    replace (length (pre ++ f :: post)) with (S (length (pre ++ post)))
      by (rewrite !length_app; simpl; lia).
    unfold bindM, print, write, make_output_dir. cbn [memory world out].
    destruct (mkdir C (world s) (Args.output_dir a)) as [w [e|]]; [reflexivity|].
    now rewrite download_loop_skip_middle.
  - intros Hdir. unfold download_all, bindM, print, write, make_output_dir.
    cbn [memory world out].
    destruct (mkdir C (world s) (Args.output_dir a)) as [w [e|]]; [discriminate|].
    rewrite download_loop_skip by assumption.
    cbn. rewrite <- !app_assoc. reflexivity.
Qed.

Lemma download_batch_skips_missing_url_example :
  let a := {| Args.json := false; Args.list_files := false;
              Args.download_files := true; Args.verbose := false;
              Args.output_dir := lit "out"; Args.search := None |} in
  download_all offline a [7]
    (start offline (<[7 := file_named (lit "notes.txt")]> ∅) tt)
  = (Normal tt,
     {| memory := <[7 := file_named (lit "notes.txt")]> ∅;
        world := tt : World offline;
        out := [Stdout ([10%N] ++ lit "Downloading to: out" ++ [10%N]);
                Stdout ([10%N] ++ lit "Downloaded 0/1 files." ++ [10%N])] |}).
Proof.
  intros a.
  exact (proj2 (proj2 (download_batch_skips_missing_url offline a [] 7 []
                         (start offline (<[7 := file_named (lit "notes.txt")]> ∅) tt)
                         eq_refl eq_refl)) eq_refl).
Defined.

(** C4, as the code has it: in the pretty mode (no [--json]) an envelope
    whose [ok] is false ends the stage at the check: the error text (or
    [Unknown error] when the envelope has none) is written after [Error: ] on
    stderr, the exit status is 1, and nothing else happens: nothing on stdout,
    no file dict touched, no transfer, whatever the payload holds. *)
Theorem pretty_error_envelope
    (C : collaborators) (json_dumps : envelope C -> pystr) (a : args)
    (result : envelope C) (s : state C) :
  Args.json a = false ->
  ok result = Some false ->
  main_output C json_dumps a result s =
  (1%Z,
   {| memory := memory s; world := world s;
      out := out s ++
             [Stderr (lit "Error: " ++ get (error result) (lit "Unknown error") ++ [10%N])] |}).
Proof.
  intros Hjson Hok.
  unfold main_output, output_stage, envelope_truthy, pretty.
  rewrite Hjson, Hok. unfold bindM, eprint, sys_exit, write.
  cbn [get negb memory world out]. now rewrite <- app_assoc.
Qed.

Lemma pretty_error_envelope_example :
  main_output offline (fun _ => lit "{}")
    {| Args.json := false; Args.list_files := true; Args.download_files := true;
       Args.verbose := false; Args.output_dir := lit "out"; Args.search := Some (lit "q") |}
    {| ok := Some false; error := Some (lit "not_authed");
       messages := Some (MessageList [message_with (lit "1.0") (lit "U1") [7]]);
       rest := tt : Rest offline |}
    (start offline (<[7 := file_named (lit "notes.txt")]> ∅) tt)
  = (1%Z,
     {| memory := <[7 := file_named (lit "notes.txt")]> ∅;
        world := tt : World offline;
        out := [Stderr (lit "Error: not_authed" ++ [10%N])] |}).
Proof.
  refine (pretty_error_envelope offline _ _ _ _ _ _); reflexivity.
Defined.

(** C4 as stated fails under [--json]: the envelope is dumped to stdout
    before [ok] is looked at, nothing goes to stderr, and the stage ends with
    status 0. *)
Lemma json_error_envelope :
  exists code : Z,
    code = 0%Z /\
    forall (C : collaborators) (json_dumps : envelope C -> pystr) (r : Rest C)
           (list_files download_files verbose : bool) (dir : pystr)
           (search : option pystr) (s : state C),
      let a := {| Args.json := true; Args.list_files := list_files;
                  Args.download_files := download_files; Args.verbose := verbose;
                  Args.output_dir := dir; Args.search := search |} in
      let result := {| ok := Some false; error := Some (lit "not_authed");
                       messages := None; rest := r |} in
      main_output C json_dumps a result s =
      (code,
       {| memory := memory s; world := world s;
          out := out s ++ [Stdout (json_dumps result ++ [10%N])] |}).
Proof.
  exists 0%Z. split; [reflexivity|]. intros. reflexivity.
Qed.

(** C2, where the code departs from it: a search response, whose [messages]
    is a dict holding [matches], rendered in the pretty mode without the file
    options. The plain [messages] path is applied to the dict: it announces
    the number of keys as messages, its loop runs over the keys, and
    [format_message] on the first key raises. The handler reports the
    exception and ends with status 1: the search path is never reached and no
    match is rendered. *)
Theorem search_response_plain_path
    (C : collaborators) (json_dumps : envelope C -> pystr)
    (verbose : bool) (dir query : pystr) (other_keys : list pystr)
    (matches : list message) (err : option pystr) (r : Rest C) (s : state C) :
  main_output C json_dumps
    {| Args.json := false; Args.list_files := false; Args.download_files := false;
       Args.verbose := verbose; Args.output_dir := dir; Args.search := Some query |}
    {| ok := Some true; error := err;
       messages := Some (SearchRecord other_keys (Some matches)); rest := r |}
    s
  = (1%Z,
     {| memory := memory s; world := world s;
        out := out s ++
               [Stdout (lit "Found " ++ decimal (Z.of_nat (S (length other_keys)))
                        ++ lit " message(s):" ++ [10%N; 10%N]);
                Stderr (lit "Error: 'str' object has no attribute 'get'" ++ [10%N])] |}).
Proof.
  unfold main_output, output_stage, envelope_truthy, pretty.
  cbn [ok error messages rest Args.json Args.list_files Args.download_files get negb orb].
  unfold messages_truthy. cbn [len]. rewrite search_keys_length.
  unfold bindM at 1. unfold bindM at 1. unfold print_messages.
  unfold bindM at 1. cbn [print write len].
  rewrite for_each_raise by apply search_keys_nonempty.
  rewrite search_keys_length. cbn [memory world out exn_text str_has_no_get AttributeError].
  rewrite <- !app_assoc. reflexivity.
Qed.

(** The same stage on a history response prints the messages, and with
    [--search] set as well the search path leaves a list alone. *)
Example history_response_rendered :
  main_output offline (fun _ => lit "{}")
    {| Args.json := false; Args.list_files := false; Args.download_files := false;
       Args.verbose := false; Args.output_dir := lit "out"; Args.search := Some (lit "q") |}
    {| ok := Some true; error := None;
       messages := Some (MessageList [message_with (lit "1769774454.630549") (lit "U1") []]);
       rest := tt : Rest offline |}
    (start offline ∅ tt)
  = (0%Z,
     {| memory := ∅; world := tt : World offline;
        out := [Stdout (lit "Found 1 message(s):" ++ [10%N; 10%N]);
                Stdout (lit "[2026-01-30 12:00:54] U1:" ++ [10%N] ++ lit "  " ++ [10%N]);
                Stdout (dashes ++ [10%N])] |}).
Proof. reflexivity. Qed.

(** A search response whose dict is empty reaches the search path, which
    finds no match. *)
Example empty_search_response_rendered :
  main_output offline (fun _ => lit "{}")
    {| Args.json := false; Args.list_files := false; Args.download_files := false;
       Args.verbose := false; Args.output_dir := lit "out"; Args.search := Some (lit "q") |}
    {| ok := Some true; error := None;
       messages := Some (SearchRecord [] None);
       rest := tt : Rest offline |}
    (start offline ∅ tt)
  = (0%Z, {| memory := ∅; world := tt : World offline; out := [] |}).
Proof. reflexivity. Qed.

(** ** What the resolver accepts *)

Module ReInversion.
Import Re ReFacts.

(** A successful run of [class+] took a non-empty run of the class and the
    continuation accepted the rest. *)
Lemma plus_class_inv {R : Type} (p : char -> bool) (k : pystr -> option R)
    (s : pystr) (r : R) :
  plus_class p s k = Some r ->
  exists s1 s2, s = s1 ++ s2 /\ s1 <> [] /\ forallb p s1 = true /\ k s2 = Some r.
Proof.
  revert r. induction s as [|c s IH]; intros r H; simpl in H; [discriminate|].
  destruct (p c) eqn:Hc; [|discriminate].
  destruct (plus_class p s k) as [r'|] eqn:E.
  - injection H as <-. destruct (IH r' eq_refl) as (s1 & s2 & -> & _ & Hall & Hk).
    exists (c :: s1), s2. repeat split; [discriminate| |assumption].
    simpl. now rewrite Hc.
  - exists [c], s. repeat split; [discriminate| |assumption].
    simpl. now rewrite Hc.
Qed.

(** Every text splits into its longest run of a class and the rest. *)
Lemma longest_run (p : char -> bool) (s : pystr) :
  exists s1 s2, s = s1 ++ s2 /\ forallb p s1 = true /\ ends_run p s2.
Proof.
  induction s as [|c s (s1 & s2 & -> & Hall & Hend)].
  - exists [], []. repeat split.
  - destruct (p c) eqn:Hc.
    + exists (c :: s1), s2. repeat split; [|assumption]. simpl. now rewrite Hc.
    + exists [], (c :: s1 ++ s2). repeat split. exact Hc.
Qed.

(** With a continuation that accepts anything, the run taken is the longest. *)
Lemma plus_class_greedy {R : Type} (p : char -> bool) (f : pystr -> R)
    (s : pystr) (r : R) :
  plus_class p s (fun s' => Some (f s')) = Some r ->
  exists s1 s2,
    s = s1 ++ s2 /\ s1 <> [] /\ forallb p s1 = true /\ ends_run p s2 /\ r = f s2.
Proof.
  revert r. induction s as [|c s IH]; intros r H; simpl in H; [discriminate|].
  destruct (p c) eqn:Hc; [|discriminate].
  destruct (plus_class p s (fun s' => Some (f s'))) as [r'|] eqn:E.
  - injection H as <-.
    destruct (IH r' eq_refl) as (s1 & s2 & -> & _ & Hall & Hend & ->).
    exists (c :: s1), s2. repeat split; [discriminate| |assumption].
    simpl. now rewrite Hc.
  - injection H as <-. exists [c], s. repeat split; [discriminate| |].
    + simpl. now rewrite Hc.
    + destruct s as [|d s]; [exact I|]. simpl in E |- *.
      destruct (p d); [|reflexivity].
      destruct (plus_class p s _); discriminate.
Qed.

Lemma group_capture (s1 s2 : pystr) :
  firstn (length (s1 ++ s2) - length s2) (s1 ++ s2) = s1.
Proof.
  rewrite length_app, Nat.add_sub, firstn_app, Nat.sub_diag, firstn_all.
  simpl. apply app_nil_r.
Qed.

End ReInversion.

Section ResolverFacts.
Import Re ReFacts ReInversion.
Variable nd : char -> bool.

(** A match of the permalink pattern, taken apart. *)
Lemma permalink_match_inv (url : pystr) (caps : captures) :
  re_match (permalink_pattern nd) url = Some caps ->
  exists sub chan digits rest,
    url = permalink sub chan digits ++ rest /\
    sub <> [] /\ forallb not_slash sub = true /\
    chan <> [] /\ forallb upper_or_digit chan = true /\
    digits <> [] /\ forallb (unicode_digit nd) digits = true /\
    ends_run (unicode_digit nd) rest /\
    caps = [chan; digits].
Proof.
  unfold re_match, permalink_pattern. intros H.
  rewrite run_seq in H. cbn [run] in H.
  destruct (match_lit (lit "https://") url) as [u1|] eqn:E1; [|discriminate].
  apply match_lit_Some in E1. subst url.
  apply plus_class_inv in H as (sub & u2 & -> & Hsub & Hsub' & H).
  destruct (match_lit (lit ".slack.com/archives/") u2) as [u3|] eqn:E2; [|discriminate].
  apply match_lit_Some in E2. subst u2.
  apply plus_class_inv in H as (chan & u4 & -> & Hchan & Hchan' & H).
  destruct (match_lit (lit "/p") u4) as [u5|] eqn:E3; [|discriminate].
  apply match_lit_Some in E3. subst u4.
  apply plus_class_greedy in H as (digits & rest & -> & Hd & Hd' & Hend & ->).
  exists sub, chan, digits, rest. unfold permalink.
  rewrite !group_capture, <- !app_assoc. repeat split; assumption.
Qed.

Lemma permalink_match_any_rest (sub chan digits rest : pystr) :
  sub <> [] -> forallb not_slash sub = true ->
  chan <> [] -> forallb upper_or_digit chan = true ->
  digits <> [] -> forallb (unicode_digit nd) digits = true ->
  exists caps, re_match (permalink_pattern nd) (permalink sub chan digits ++ rest)
               = Some caps.
Proof.
  intros Hs Hs' Hc Hc' Hd Hd'.
  destruct (longest_run (unicode_digit nd) rest) as (r1 & r2 & -> & Hr1 & Hr2).
  exists [chan; digits ++ r1].
  assert (permalink sub chan digits ++ r1 ++ r2 = permalink sub chan (digits ++ r1) ++ r2) as ->
    by (unfold permalink; now rewrite <- !app_assoc).
  apply permalink_match; try assumption.
  - destruct digits; [congruence|discriminate].
  - now rewrite forallb_app, Hd', Hr1.
Qed.

(** A match of the thread pattern, taken apart. *)
Lemma thread_match_inv (s : pystr) (caps : captures) :
  re_match thread_pattern s = Some caps ->
  exists t b,
    s = lit "thread_ts=" ++ t ++ b /\ t <> [] /\ forallb digit_or_dot t = true /\
    ends_run digit_or_dot b /\ caps = [t].
Proof.
  unfold re_match, thread_pattern. intros H.
  rewrite run_seq in H. cbn [run] in H.
  destruct (match_lit (lit "thread_ts=") s) as [u|] eqn:E; [|discriminate].
  apply match_lit_Some in E. subst s.
  apply plus_class_greedy in H as (t & b & -> & Ht & Ht' & Hend & ->).
  exists t, b. rewrite group_capture. repeat split; assumption.
Qed.

Lemma re_search_inv (r : regex) (s : pystr) (caps : captures) :
  re_search r s = Some caps ->
  exists a b, s = a ++ b /\ re_match r b = Some caps.
Proof.
  induction s as [|c s IH]; simpl.
  - destruct (re_match r []) eqn:E; [|discriminate].
    intros [= <-]. now exists [], [].
  - destruct (re_match r (c :: s)) eqn:E.
    + intros [= <-]. now exists [], (c :: s).
    + intros H. destruct (IH H) as (a & b & -> & Hb). now exists (c :: a), b.
Qed.

Lemma re_search_finds (r : regex) (a b : pystr) (caps : captures) :
  re_match r b = Some caps -> exists caps', re_search r (a ++ b) = Some caps'.
Proof.
  intros H. induction a as [|c a [caps' IH]].
  - exists caps. now apply re_search_here.
  - change ((c :: a) ++ b) with (c :: a ++ b). rewrite re_search_cons.
    destruct (re_match r (c :: a ++ b)); eauto.
Qed.

End ResolverFacts.



(** X1 ([parse_slack_url]): the resolver accepts exactly the texts that start as a permalink:
    [https://], a non-empty host part without [/] that ends in [.slack.com],
    [/archives/], a non-empty channel of [A-Z0-9], [/p] and a digit; what
    follows is not looked at. Every other text gives [None]. *)
Theorem parse_slack_url_accepts (nd : char -> bool) (url : pystr) :
  parse_slack_url nd url <> None <-> permalink_shaped nd url.
Proof.
  unfold parse_slack_url, permalink_shaped. split.
  - destruct (Re.re_match (permalink_pattern nd) url) as [caps|] eqn:E; [|congruence].
    intros _. apply permalink_match_inv in E
      as (sub & chan & digits & rest & -> & ? & ? & ? & ? & ? & ? & _ & _).
    exists sub, chan, digits, rest. repeat split; assumption.
  - intros (sub & chan & digits & rest & -> & Hs & Hs' & Hc & Hc' & Hd & Hd').
    destruct (permalink_match_any_rest nd sub chan digits rest) as [caps ->];
      try assumption.
    discriminate.
Qed.



(** X3 ([parse_slack_url]): the result has a [thread_ts] exactly when the URL holds the text
    [thread_ts=] followed by a digit or a point, anywhere (the host and path
    included); the value is then a non-empty run of digits and points that
    stands after a [thread_ts=] and ends where the run does. A [thread_ts=]
    followed by anything else leaves the key out. *)
Theorem parse_slack_url_thread_key
    (nd : char -> bool) (url : pystr) (r : parsed_url) :
  parse_slack_url nd url = Some r ->
  (thread_ts r <> None <-> has_thread_ts url) /\
  (forall t : pystr,
     thread_ts r = Some t ->
     t <> [] /\ forallb Re.digit_or_dot t = true /\
     exists a b : pystr,
       url = a ++ lit "thread_ts=" ++ t ++ b /\ Re.ends_run Re.digit_or_dot b).
Proof.
  unfold parse_slack_url.
  destruct (Re.re_match (permalink_pattern nd) url) as [caps|]; [|discriminate].
  intros [= <-]. cbn [thread_ts].
  assert (forall t,
            (if contains (lit "thread_ts=") url
             then match Re.re_search thread_pattern url with
                  | Some tm => Some (Re.group tm 1)
                  | None => None
                  end
             else None) = Some t ->
            t <> [] /\ forallb Re.digit_or_dot t = true /\
            exists a b, url = a ++ lit "thread_ts=" ++ t ++ b /\
                        Re.ends_run Re.digit_or_dot b) as Hsound.
  { intros t H. destruct (contains _ url); [|discriminate].
    destruct (Re.re_search thread_pattern url) as [tm|] eqn:E; [|discriminate].
    injection H as <-.
    apply re_search_inv in E as (a & s & -> & E).
    apply thread_match_inv in E as (t & b & -> & Ht & Ht' & Hend & ->).
    cbn [Re.group nth Nat.sub]. repeat split; eauto. }
  split; [|exact Hsound]. split.
  - intros H.
    destruct (if contains _ url then _ else _) as [t|] eqn:E; [|congruence].
    destruct (Hsound t eq_refl) as (Ht & Ht' & a & b & -> & _).
    now exists a, t, b.
  - intros (a & t & b & -> & Ht & Ht').
    rewrite contains_app.
    destruct (ReInversion.longest_run Re.digit_or_dot b) as (b1 & b2 & -> & Hb1 & Hb2).
    destruct (re_search_finds thread_pattern a (lit "thread_ts=" ++ (t ++ b1) ++ b2) [t ++ b1])
      as [caps' E].
    { apply thread_match_here; [destruct t; [congruence|discriminate]| |assumption].
      now rewrite forallb_app, Ht', Hb1. }
    rewrite <- !app_assoc in E. rewrite E. discriminate.
Qed.

Lemma parse_slack_url_thread_key_example :
  let url := lit "https://acme.slack.com/archives/C1/p1769774454630549?thread_ts=1769174779.798959&cid=C1" in
  let r := {| channel_id := lit "C1"; message_ts := lit "1769774454.630549";
              thread_ts := Some (lit "1769174779.798959") |} in
  (thread_ts r <> None <-> has_thread_ts url) /\
  (forall t : pystr,
     thread_ts r = Some t ->
     t <> [] /\ forallb Re.digit_or_dot t = true /\
     exists a b : pystr,
       url = a ++ lit "thread_ts=" ++ t ++ b /\ Re.ends_run Re.digit_or_dot b).
Proof.
  intros url r.
  exact (parse_slack_url_thread_key (fun _ => false) url r eq_refl).
Defined.

(** ** More on file extraction *)

(** X4 ([extract_files_from_messages]): extraction writes the two tags and nothing else: a dict that no message
    lists is left as it was, a dict that one lists keeps every other key
    (name, size, type, URLs, permalink), and no dict appears or disappears. *)
Theorem extract_files_frame (messages : list message) (st : store) (r : ref) :
  ((forall m : message, In m messages -> r ∉ files_of m) ->
   (extract_files_from_messages messages st).1 !! r = st !! r) /\
  match st !! r, (extract_files_from_messages messages st).1 !! r with
  | Some f, Some g => same_but_tags f g
  | None, None => True
  | _, _ => False
  end.
Proof.
  unfold extract_files_from_messages. rewrite extract_loop_store. split.
  - intros Hno. destruct (last_owner messages r) as [m|] eqn:E; [|reflexivity].
    apply last_owner_lists in E as [Hin Hr]. now destruct (Hno m Hin).
  - destruct (last_owner messages r), (st !! r); simpl; try exact I;
      repeat split.
Qed.

(** X5 ([extract_files_from_messages]): extracting a second time changes nothing more: the same list comes
    back and the file dicts stay as the first call left them. *)
Theorem extract_files_twice (messages : list message) (st : store) :
  extract_files_from_messages messages (extract_files_from_messages messages st).1
  = extract_files_from_messages messages st.
Proof.
  unfold extract_files_from_messages.
  rewrite (surjective_pairing (extract_loop messages (extract_loop messages st []).1 [])).
  rewrite (surjective_pairing (extract_loop messages st [])) at 3.
  f_equal.
  - apply map_eq. intros r. rewrite !extract_loop_store.
    destruct (last_owner messages r); [|reflexivity].
    destruct (st !! r); reflexivity.
  - now rewrite !extract_loop_list.
Qed.

(** ** More on sizes *)

Section SizeEdges.
Local Open Scope Z_scope.

(** X6 ([format_file_size]): the unit is chosen before the number is rounded: a size within 51 bytes
    below 1024 * 1024 is still counted in KB and is shown as [1024.0KB], not
    as [1.0MB]. *)
Theorem format_file_size_below_mega (n : Z) :
  1048525 <= n < 1048576 -> format_file_size n = Ok (lit "1024.0KB").
Proof.
  intros Hn.
  rewrite format_file_size_exact by (change (2 ^ 53) with 9007199254740992; lia).
  rewrite unit_index_cases.
  destruct (Z.ltb_spec n (2 ^ 10)); [change (2 ^ 10) with 1024 in *; lia|].
  destruct (Z.ltb_spec n (2 ^ 20)); [|change (2 ^ 20) with 1048576 in *; lia].
  unfold PyFloat.one_decimal. rewrite Z.abs_eq by lia.
  destruct (Z.ltb_spec n 0); [lia|].
  change (1024 ^ Z.of_nat 1) with 1024.
  assert (PyFloat.half_even (n * 10) 1024 = 10240) as ->; [|reflexivity].
  unfold PyFloat.half_even.
  assert (n * 10 / 1024 = 10239) as Hq
    by (symmetry; apply Z.div_unique with (r := n * 10 - 10239 * 1024); lia).
  assert ((n * 10) mod 1024 = n * 10 - 10239 * 1024) as Hr
    by (rewrite Z.mod_eq, Hq by lia; lia).
  rewrite Hq, Hr.
  destruct (Z.ltb_spec 1024 (2 * (n * 10 - 10239 * 1024))); [reflexivity|lia].
Qed.

Lemma format_file_size_below_mega_example :
  format_file_size 1048575 = Ok (lit "1024.0KB").
Proof.
  exact (format_file_size_below_mega 1048575 ltac:(lia)).
Defined.

End SizeEdges.

(** ** More on the download batch *)

Section BatchFacts.
Variable C : collaborators.
Local Open Scope Z_scope.

Lemma download_file_outcome (url path : pystr) (s : state C) :
  match download_file C url path s with
  | (Normal _, s') | (Raised _, s') | (SysExit _, s') => memory s' = memory s
  end.
Proof.
  pose proof (download_file_memory C url path s) as H.
  destruct (download_file C url path s) as [[b|e|c] s']; exact H.
Qed.

(** The count only grows, and by no more than the files that have a URL. *)
Lemma download_loop_count (a : args) (files : list ref) (n m : Z) (s s' : state C) :
  download_loop C a files n s = (Normal m, s') ->
  n <= m <= n + Z.of_nat (length (List.filter (has_url (memory s)) files)).
Proof.
  revert n s. induction files as [|f files IH]; intros n s H.
  - injection H as <- <-. simpl. lia.
  - rewrite download_loop_cons in H. cbv zeta in H.
    cbn [List.filter]. unfold has_url at 1.
    destruct (truthy _) eqn:Hu.
    + cbn [length]. 
      match type of H with context [download_file C ?u ?p ?s1] =>
        pose proof (download_file_memory C u p s1) as Hm;
        destruct (download_file C u p s1) as [[[]| |] s2]
      end; try discriminate; simpl in Hm;
      apply IH in H; cbn [memory] in H; rewrite Hm in H; lia.
    + apply IH in H. lia.
Qed.

End BatchFacts.

(** X7 ([main], lines 485-500): the success count of the download loop never passes the number of files
    that have a URL, so the summary never shows more successes than files;
    and it never falls. *)
Theorem download_count_bounds
    (C : collaborators) (a : args) (files : list ref) (success : Z)
    (s s' : state C) :
  download_loop C a files 0 s = (Normal success, s') ->
  (0 <= success <= Z.of_nat (length (List.filter (has_url (memory s)) files)))%Z /\
  (success <= Z.of_nat (length files))%Z.
Proof.
  intros H. apply download_loop_count in H.
  pose proof (List.filter_length_le (has_url (memory s)) files). lia.
Qed.

Lemma download_count_bounds_example :
  let st : store :=
    <[1 := {| File.name := Some (lit "a.txt"); File.size := None; File.filetype := None;
              File.url_private_download := Some (lit "https://files.slack.com/a");
              File.url_private := None; File.permalink := None;
              File._message_ts := None; File._message_user := None |}]>
      (<[2 := file_named (lit "b.txt")]> ∅) in
  let a := {| Args.json := false; Args.list_files := false;
              Args.download_files := true; Args.verbose := false;
              Args.output_dir := lit "out"; Args.search := None |} in
  (0 <= 0 <= Z.of_nat (length (List.filter (has_url st) [1%nat; 2%nat])))%Z /\
  (0 <= Z.of_nat (length [1%nat; 2%nat]))%Z.
Proof.
  intros st a.
  exact (download_count_bounds offline a [1; 2] 0 (start offline st tt) _ eq_refl).
Defined.

(** X8 ([SlackClient.download_file]; [main], lines 489-499): a transfer that fails does not stop the batch: the failure is reported
    ([Error downloading file: ...] on stderr, [FAILED] after the file's
    name), the count stands, and the loop goes on with the next file. *)
Theorem download_failure_goes_on
    (C : collaborators) (a : args) (f : ref) (files : list ref) (success : Z)
    (s : state C) (w : World C) (e : exn) :
  has_url (memory s) f = true ->
  new_request C (file_url (memory s) f) = None ->
  transfer C (world s) (file_url (memory s) f)
    (path_join C (Args.output_dir a) (file_name (memory s) f)) = (w, Some e) ->
  download_loop C a (f :: files) success s =
  download_loop C a files success
    (emit (with_world s w)
       [Stdout (lit "  Downloading: " ++ file_name (memory s) f ++ lit "..." ++ lit " ");
        Stderr (lit "Error downloading file: " ++ exn_text e ++ [10%N]);
        Stdout (lit "FAILED" ++ [10%N])]).
Proof.
  unfold has_url, file_url, file_name. intros Hu Hreq Htr.
  rewrite download_loop_cons. cbv zeta. rewrite Hu.
  unfold download_file. rewrite Hreq. cbn [world memory out]. rewrite Htr.
  unfold emit, with_world. cbn [memory world out].
  rewrite <- !app_assoc. reflexivity.
Qed.

Lemma download_failure_goes_on_example :
  download_loop offline (download_args (lit "out")) [1; 2] 0
    (start offline (<[1 := file_at (lit "a.txt") (lit "https://files.slack.com/a")]>
                      (<[2 := file_named (lit "b.txt")]> ∅)) tt)
  = download_loop offline (download_args (lit "out")) [2] 0
      (emit (with_world
               (start offline (<[1 := file_at (lit "a.txt") (lit "https://files.slack.com/a")]>
                                 (<[2 := file_named (lit "b.txt")]> ∅)) tt) tt)
         [Stdout (lit "  Downloading: " ++ lit "a.txt" ++ lit "..." ++ lit " ");
          Stderr (lit "Error downloading file: " ++ lit "offline" ++ [10%N]);
          Stdout (lit "FAILED" ++ [10%N])]).
Proof.
  exact (download_failure_goes_on offline (download_args (lit "out")) 1 [2] 0
           (start offline (<[1 := file_at (lit "a.txt") (lit "https://files.slack.com/a")]>
                             (<[2 := file_named (lit "b.txt")]> ∅)) tt)
           tt _ eq_refl eq_refl eq_refl).
Defined.

(** X9 ([SlackClient.download_file]; [main], lines 485-500): a URL that [urllib.request.Request] refuses is not a failed download:
    the request is built outside [download_file]'s [try], so the exception
    leaves the loop. The batch stops at that file: its name has been
    announced, no later file is tried and no summary line is written. *)
Theorem download_bad_url_aborts
    (C : collaborators) (a : args) (f : ref) (files : list ref)
    (s : state C) (e : exn) :
  has_url (memory s) f = true ->
  new_request C (file_url (memory s) f) = Some e ->
  (mkdir C (world s) (Args.output_dir a)).2 = None ->
  download_all C a (f :: files) s =
  (Raised e,
   emit (with_world s (mkdir C (world s) (Args.output_dir a)).1)
     [Stdout ([10%N] ++ lit "Downloading to: " ++ Args.output_dir a ++ [10%N]);
      Stdout (lit "  Downloading: " ++ file_name (memory s) f ++ lit "..." ++ lit " ")]).
Proof.
  unfold has_url, file_url, file_name. intros Hu Hreq Hdir.
  unfold download_all, bindM, print, write, make_output_dir. cbn [memory world out].
  destruct (mkdir C (world s) (Args.output_dir a)) as [w [e'|]]; [discriminate|].
  rewrite download_loop_cons. cbv zeta. cbn [memory world out]. rewrite Hu.
  unfold download_file. rewrite Hreq.
  unfold raise, emit, with_world. cbn [memory world out fst].
  rewrite <- !app_assoc. reflexivity.
Qed.

Lemma download_bad_url_aborts_example :
  download_all online_strict (download_args (lit "out")) [1; 2]
    (start online_strict (<[1 := file_at (lit "a.txt") (lit "files.slack.com/a")]>
                     (<[2 := file_at (lit "b.txt") (lit "https://files.slack.com/b")]> ∅)) tt)
  = (Raised {| exn_class := lit "ValueError"; exn_text := lit "unknown url type" |},
     emit (with_world
             (start online_strict (<[1 := file_at (lit "a.txt") (lit "files.slack.com/a")]>
                              (<[2 := file_at (lit "b.txt") (lit "https://files.slack.com/b")]> ∅)) tt)
             tt)
       [Stdout ([10%N] ++ lit "Downloading to: " ++ lit "out" ++ [10%N]);
        Stdout (lit "  Downloading: " ++ lit "a.txt" ++ lit "..." ++ lit " ")]).
Proof.
  exact (download_bad_url_aborts online_strict (download_args (lit "out")) 1 [2]
           (start online_strict (<[1 := file_at (lit "a.txt") (lit "files.slack.com/a")]>
                            (<[2 := file_at (lit "b.txt") (lit "https://files.slack.com/b")]> ∅)) tt)
           _ eq_refl eq_refl eq_refl).
Defined.

Section AllSucceed.
Variable C : collaborators.
Hypothesis requests_built : forall url, new_request C url = None.
Hypothesis transfers_done : forall w url path, (transfer C w url path).2 = None.
Local Open Scope Z_scope.

Lemma download_loop_all (a : args) (files : list ref) (n : Z) (s : state C) :
  (download_loop C a files n s).1 =
  Normal (n + Z.of_nat (length (List.filter (has_url (memory s)) files))).
Proof using requests_built transfers_done.
  revert n s. induction files as [|f files IH]; intros n s.
  - simpl. now rewrite Z.add_0_r.
  - rewrite download_loop_cons. cbv zeta.
    change (truthy (or_else (File.url_private_download (deref (memory s) f))
                            (File.url_private (deref (memory s) f))))
      with (has_url (memory s) f).
    cbn [List.filter]. destruct (has_url (memory s) f) eqn:Hu; [|apply IH].
    unfold download_file. rewrite requests_built. cbn [world memory out].
    match goal with |- context [transfer C ?w ?u ?p] =>
      pose proof (transfers_done w u p) as Ht;
      destruct (transfer C w u p) as [w' [e|]]
    end; [discriminate|].
    rewrite IH. cbn [memory length]. f_equal. lia.
Qed.

End AllSucceed.

(** X10 ([main], lines 485-500): when every request can be built and every transfer succeeds, the count
    the summary shows is the number of files that have a URL, whatever their
    order and whatever stands between them. *)
Theorem download_all_succeed
    (C : collaborators) (a : args) (files : list ref) (s : state C) :
  (forall url, new_request C url = None) ->
  (forall w url path, (transfer C w url path).2 = None) ->
  (download_loop C a files 0 s).1 =
  Normal (Z.of_nat (length (List.filter (has_url (memory s)) files))).
Proof.
  intros H1 H2. now rewrite (download_loop_all C H1 H2).
Qed.

Lemma download_all_succeed_example :
  let st : store :=
    <[1 := file_at (lit "a.txt") (lit "https://files.slack.com/a")]>
      (<[2 := file_named (lit "b.txt")]>
         (<[3 := file_at (lit "c.txt") (lit "https://files.slack.com/c")]> ∅)) in
  (download_loop online (download_args (lit "out")) [1; 2; 3] 0 (start online st tt)).1
  = Normal (Z.of_nat (length (List.filter (has_url st) [1; 2; 3]))).
Proof.
  intros st.
  exact (download_all_succeed online (download_args (lit "out")) [1; 2; 3]
           (start online st tt) (fun _ => eq_refl) (fun _ _ _ => eq_refl)).
Defined.

(** ** More on the output stage *)

Section OutputFacts.
Variable C : collaborators.

Lemma emit_nil (s : state C) : emit s [] = s.
Proof. destruct s. unfold emit. simpl. now rewrite app_nil_r. Qed.

Lemma emit_emit (s : state C) (a b : list event) :
  emit (emit s a) b = emit s (a ++ b).
Proof. unfold emit. simpl. now rewrite app_assoc. Qed.

Lemma print_emit (t : pystr) (s : state C) :
  print C t s = (Normal tt, emit s [Stdout (t ++ [10%N])]).
Proof. reflexivity. Qed.

Lemma bindM_normal {A B : Type} (m : M C A) (k : A -> M C B) (s s' : state C) (x : A) :
  m s = (Normal x, s') -> bindM C m k s = k x s'.
Proof. unfold bindM. now intros ->. Qed.

Lemma for_each_print (l : list pystr) (s : state C) :
  for_each C l (print C) s = (Normal tt, emit s (printed l)).
Proof.
  revert s. induction l as [|t l IH]; intros s.
  - cbn. now rewrite emit_nil.
  - cbn [for_each]. rewrite (bindM_normal _ _ _ _ _ (print_emit t s)).
    rewrite IH, emit_emit. reflexivity.
Qed.


(** No file anywhere: nothing is extracted and nothing is written to. *)
Lemma extract_nothing (ms : list message) (st : store) :
  concat (map files_of ms) = [] ->
  extract_files_from_messages ms st = (st, []).
Proof.
  intros Hno. unfold extract_files_from_messages.
  rewrite (surjective_pairing (extract_loop ms st [])). f_equal.
  - apply map_eq. intros r. rewrite extract_loop_store.
    destruct (last_owner ms r) as [m|] eqn:E; [|reflexivity].
    apply last_owner_lists in E as [Hin Hr]. exfalso.
    assert (r ∈ concat (map files_of ms)) as Hc.
    { apply list_elem_of_In, in_concat. exists (files_of m).
      split; [now apply in_map|now apply list_elem_of_In]. }
    rewrite Hno in Hc. now apply elem_of_nil in Hc.
  - now rewrite extract_loop_list, Hno.
Qed.

End OutputFacts.



(** X12 ([main], lines 473-479): with [--list-files] or [--download-files] and messages that hold no
    file, the stage writes [No files found in messages.] and goes on to the
    record blocks; no directory is made and nothing is fetched. *)
Theorem no_files_found
    (C : collaborators) (json_dumps : envelope C -> pystr) (a : args)
    (result : envelope C) (ms : list message) (s : state C) :
  Args.json a = false ->
  Args.list_files a || Args.download_files a = true ->
  ok result = Some true ->
  messages result = Some (MessageList ms) ->
  concat (map files_of ms) = [] ->
  main_output C json_dumps a result s =
  (0%Z, emit s (Stdout (lit "No files found in messages." ++ [10%N])
                :: printed (record_lines C (rest result)))).
Proof.
  intros Hj Hl Hok Hm Hno.
  unfold main_output, output_stage, envelope_truthy, pretty.
  rewrite Hj, Hl, Hok, Hm. cbn [get negb].
  assert (list_files_block C a (MessageList ms) s
          = (Normal tt, emit s [Stdout (lit "No files found in messages." ++ [10%N])])) as E1.
  { unfold list_files_block, bindM, call_extract_files.
    rewrite extract_nothing by assumption. cbn [nonempty].
    rewrite print_emit. destruct s; reflexivity. }
  rewrite (bindM_normal C _ _ _ _ _ E1).
  match goal with |- context [bindM C ?m _ (emit s ?ev)] =>
    assert (m (emit s ev) = (Normal tt, emit s ev)) as E2
      by (destruct (truthy (Args.search a)); reflexivity)
  end.
  rewrite (bindM_normal C _ _ _ _ _ E2).
  now rewrite for_each_print, emit_emit.
Qed.

Lemma no_files_found_example :
  main_output offline (fun _ => lit "{}")
    {| Args.json := false; Args.list_files := false; Args.download_files := true;
       Args.verbose := false; Args.output_dir := lit "out"; Args.search := None |}
    {| ok := Some true; error := None;
       messages := Some (MessageList [message_with (lit "1.0") (lit "U1") []]);
       rest := tt : Rest offline |}
    (start offline ∅ tt)
  = (0%Z, emit (start offline ∅ tt)
            (Stdout (lit "No files found in messages." ++ [10%N]) :: printed [])).
Proof.
  refine (no_files_found offline _ _ _ _ (start offline ∅ tt) _ _ _ _ _);
    reflexivity.
Defined.

(** X13 ([main], lines 473-478; [extract_files_from_messages]): with [--list-files] or [--download-files] a search response fails as
    well: [extract_files_from_messages] loops over the keys of the dict and
    calls [get] on a string. Nothing is listed; the error goes to stderr and
    the exit status is 1. *)
Theorem list_files_search_response
    (C : collaborators) (json_dumps : envelope C -> pystr) (a : args)
    (result : envelope C) (other_keys : list pystr) (matches : list message)
    (s : state C) :
  Args.json a = false ->
  Args.list_files a || Args.download_files a = true ->
  ok result = Some true ->
  messages result = Some (SearchRecord other_keys (Some matches)) ->
  main_output C json_dumps a result s =
  (1%Z, emit s [Stderr (lit "Error: 'str' object has no attribute 'get'" ++ [10%N])]).
Proof.
  intros Hj Hl Hok Hm.
  unfold main_output, output_stage, envelope_truthy, pretty.
  rewrite Hj, Hl, Hok, Hm. cbn [get negb].
  unfold bindM at 1. unfold list_files_block. unfold bindM at 1.
  unfold call_extract_files. unfold bindM at 1.
  rewrite for_each_raise by apply search_keys_nonempty.
  reflexivity.
Qed.

Lemma list_files_search_response_example :
  main_output offline (fun _ => lit "{}")
    {| Args.json := false; Args.list_files := true; Args.download_files := false;
       Args.verbose := false; Args.output_dir := lit "out"; Args.search := Some (lit "q") |}
    {| ok := Some true; error := None;
       messages := Some (SearchRecord [lit "total"]
                           (Some [message_with (lit "1.0") (lit "U1") [7]]));
       rest := tt : Rest offline |}
    (start offline (<[7 := file_named (lit "a.txt")]> ∅) tt)
  = (1%Z, emit (start offline (<[7 := file_named (lit "a.txt")]> ∅) tt)
            [Stderr (lit "Error: 'str' object has no attribute 'get'" ++ [10%N])]).
Proof.
  refine (list_files_search_response offline _ _ _ _ _
            (start offline (<[7 := file_named (lit "a.txt")]> ∅) tt) _ _ _ _);
    reflexivity.
Defined.

(** X14 ([format_message], [extract_files_from_messages]): tagging the files does not change how a message reads: after
    [extract_files_from_messages], [format_message] gives the text it gave
    before, for any message, the messages just passed included. *)
Theorem format_message_after_extract
    (local_time : pystr -> pystr) (messages : list message) (st : store)
    (msg : message) (users_cache : option (gmap pystr pystr)) :
  format_message local_time (extract_files_from_messages messages st).1 msg users_cache
  = format_message local_time st msg users_cache.
Proof.
  assert (forall f,
            File.name (deref (extract_files_from_messages messages st).1 f)
            = File.name (deref st f)) as Hname.
  { intros f. unfold deref, extract_files_from_messages. rewrite extract_loop_store.
    destruct (last_owner messages f), (st !! f); reflexivity. }
  unfold format_message, files_str.
  rewrite (map_ext _ (fun f => [paperclip] ++ lit " " ++
                               get (File.name (deref st f)) (lit "unnamed")));
    [reflexivity|].
  intros f. now rewrite Hname.
Qed.

(** ** Stripping *)

Section StripFacts.
Variable p : char -> bool.

Lemma lstrip_all (lead s : pystr) :
  forallb p lead = true -> lstrip p (lead ++ s) = lstrip p s.
Proof.
  induction lead as [|c lead IH]; simpl; [reflexivity|].
  intros H. apply andb_prop in H as [Hc Hl]. now rewrite Hc, IH.
Qed.

Lemma lstrip_all_nil (lead : pystr) :
  forallb p lead = true -> lstrip p lead = [].
Proof.
  intros H. rewrite <- (app_nil_r lead). now rewrite lstrip_all.
Qed.

Lemma lstrip_head (c : char) (s : pystr) :
  p c = false -> lstrip p (c :: s) = c :: s.
Proof. intros H. simpl. now rewrite H. Qed.

Lemma forallb_rev (l : pystr) : forallb p (rev l) = forallb p l.
Proof.
  induction l as [|c l IH]; simpl; [reflexivity|].
  rewrite forallb_app, IH. simpl. rewrite andb_true_r. apply andb_comm.
Qed.

Lemma rstrip_all (s trail : pystr) :
  forallb p trail = true -> rstrip p (s ++ trail) = rstrip p s.
Proof.
  intros H. unfold rstrip. rewrite rev_app_distr, lstrip_all; [reflexivity|].
  now rewrite forallb_rev.
Qed.

Lemma rstrip_last (s : pystr) (c : char) :
  p c = false -> rstrip p (s ++ [c]) = s ++ [c].
Proof.
  intros H. unfold rstrip. rewrite rev_app_distr.
  change (rev [c] ++ rev s) with (c :: rev s).
  rewrite lstrip_head by assumption.
  change (c :: rev s) with (rev [c] ++ rev s).
  now rewrite <- rev_app_distr, rev_involutive.
Qed.

Lemma bare_ends (s : pystr) :
  bare p s = true ->
  s = [] \/ exists c a b d, s = c :: a /\ p c = false /\ s = b ++ [d] /\ p d = false.
Proof.
  destruct s as [|c s]; [now left|]. intros H. right.
  unfold bare in H. apply andb_prop in H as [Hc Hd].
  apply negb_true_iff in Hc, Hd.
  destruct (exists_last (l := c :: s) ltac:(discriminate)) as [b [d Hb]].
  exists c, s, b, d. rewrite Hb in Hd. rewrite last_last in Hd. auto.
Qed.

(** [strip] takes exactly the characters of [p] at the two ends. *)
Lemma strip_by_core (lead body trail : pystr) :
  forallb p lead = true -> forallb p trail = true -> bare p body = true ->
  strip_by p (lead ++ body ++ trail) = body.
Proof.
  intros Hl Ht Hb. unfold strip_by. rewrite lstrip_all by assumption.
  destruct (bare_ends body Hb) as [-> | [c [a [b [d [Hs [Hc [Hs' Hd]]]]]]]].
  - simpl app. rewrite lstrip_all_nil by assumption. reflexivity.
  - rewrite Hs at 1. simpl app. rewrite lstrip_head by assumption.
    change (c :: a ++ trail) with ((c :: a) ++ trail). rewrite <- Hs.
    rewrite rstrip_all by assumption. rewrite Hs'. now apply rstrip_last.
Qed.

Lemma bare_app (a b : pystr) :
  a <> [] -> b <> [] -> bare p a = true -> bare p b = true -> bare p (a ++ b) = true.
Proof.
  intros Ha Hb Hba Hbb.
  destruct (bare_ends a Hba) as [-> | [c [a' [_ [_ [-> [Hc _]]]]]]]; [congruence|].
  destruct (bare_ends b Hbb) as [-> | [_ [_ [b' [d [_ [_ [-> Hd]]]]]]]]; [congruence|].
  change (negb (p c) && negb (p (List.last ((c :: a') ++ b' ++ [d]) c)) = true).
  rewrite app_assoc, last_last, Hc, Hd. reflexivity.
Qed.

End StripFacts.

(** ** Tokens *)

Section TokenFacts.
Variable ws : char -> bool.

Lemma env_line_keeps_fst (line : pystr) (xc xd : option pystr) :
  truthy xc = true -> fst (env_line ws line (xc, xd)) = xc.
Proof.
  intros H. unfold env_line.
  destruct (nonempty _ && negb _ && contains _ _); [|reflexivity].
  destruct (split_first _ _) as [key value]. rewrite H.
  rewrite andb_false_r.
  now destruct (bool_decide _ && negb (truthy xd)).
Qed.

Lemma env_line_keeps_snd (line : pystr) (xc xd : option pystr) :
  truthy xd = true -> snd (env_line ws line (xc, xd)) = xd.
Proof.
  intros H. unfold env_line.
  destruct (nonempty _ && negb _ && contains _ _); [|reflexivity].
  destruct (split_first _ _) as [key value]. rewrite H.
  rewrite andb_false_r.
  now destruct (bool_decide _ && negb (truthy xc)).
Qed.

Lemma env_lines_keeps_fst (lines : list pystr) (xc xd : option pystr) :
  truthy xc = true -> fst (env_lines ws lines (xc, xd)) = xc.
Proof.
  revert xd. induction lines as [|line lines IH]; intros xd H; [reflexivity|].
  cbn [env_lines].
  pose proof (env_line_keeps_fst line xc xd H) as Hl.
  destruct (env_line ws line (xc, xd)) as [xc' xd']. simpl in Hl. subst xc'.
  now apply IH.
Qed.

Lemma env_lines_keeps_snd (lines : list pystr) (xc xd : option pystr) :
  truthy xd = true -> snd (env_lines ws lines (xc, xd)) = xd.
Proof.
  revert xc. induction lines as [|line lines IH]; intros xc H; [reflexivity|].
  cbn [env_lines].
  pose proof (env_line_keeps_snd line xc xd H) as Hl.
  destruct (env_line ws line (xc, xd)) as [xc' xd']. simpl in Hl. subst xd'.
  now apply IH.
Qed.

Lemma env_lines_app (a b : list pystr) (t : option pystr * option pystr) :
  env_lines ws (a ++ b) t = env_lines ws b (env_lines ws a t).
Proof. revert t. induction a as [|l a IH]; intros t; [reflexivity|]. apply IH. Qed.

(** A line that does not assign the key leaves the token as it is. *)
Lemma env_line_other (line : pystr) (xc xd : option pystr) :
  assigns ws (lit "SLACK_XOXC_TOKEN") line = false ->
  fst (env_line ws line (xc, xd)) = xc.
Proof.
  unfold assigns, env_line.
  destruct (nonempty _ && negb _ && contains _ _); [|reflexivity].
  destruct (split_first _ _) as [key value]. cbn [fst andb]. intros ->.
  cbn [andb]. now destruct (bool_decide _ && negb (truthy xd)).
Qed.

Lemma env_lines_other (lines : list pystr) (xc xd : option pystr) :
  forallb (fun l => negb (assigns ws (lit "SLACK_XOXC_TOKEN") l)) lines = true ->
  fst (env_lines ws lines (xc, xd)) = xc.
Proof.
  revert xd. induction lines as [|line lines IH]; intros xd H; [reflexivity|].
  cbn [forallb] in H. apply andb_prop in H as [Hl Hr].
  apply negb_true_iff in Hl. cbn [env_lines].
  pose proof (env_line_other line xc xd Hl) as Hx.
  destruct (env_line ws line (xc, xd)) as [xc' xd']. simpl in Hx. subst xc'.
  now apply IH.
Qed.

Lemma split_first_app (key value : pystr) :
  forallb (fun c => negb (c =? 61)%N) key = true ->
  split_first 61%N (key ++ 61%N :: value) = (key, value).
Proof.
  induction key as [|c key IH]; intros H; [reflexivity|].
  cbn [forallb] in H. apply andb_prop in H as [Hc Hk].
  apply negb_true_iff in Hc. cbn [app split_first]. now rewrite Hc, IH.
Qed.

(** The line [SLACK_XOXC_TOKEN=<value>], once stripped. *)
Lemma env_line_sets (line value : pystr) (xc xd : option pystr) :
  truthy xc = false ->
  strip_by (is_space ws) line = lit "SLACK_XOXC_TOKEN=" ++ value ->
  env_line ws line (xc, xd) = (Some value, xd).
Proof.
  intros Hx Hs. unfold env_line. rewrite Hs.
  assert (contains (lit "=") (lit "SLACK_XOXC_TOKEN=" ++ value) = true) as ->.
  { change (lit "SLACK_XOXC_TOKEN=") with (lit "SLACK_XOXC_TOKEN" ++ lit "=").
    rewrite <- app_assoc. apply contains_app. }
  change (lit "SLACK_XOXC_TOKEN=" ++ value)
    with (83%N :: lit "LACK_XOXC_TOKEN=" ++ value) at 1 2.
  change (lit "#") with [35%N].
  cbn [nonempty starts_with N.eqb Pos.eqb andb negb].
  change (lit "SLACK_XOXC_TOKEN=" ++ value)
    with (lit "SLACK_XOXC_TOKEN" ++ 61%N :: value).
  rewrite split_first_app by reflexivity.
  rewrite Hx, bool_decide_eq_true_2 by reflexivity. reflexivity.
Qed.

End TokenFacts.

(** X15 ([load_tokens], [load_env_file]): a token that is set, and not
    empty, in the environment is the one returned, whatever the [.env] file
    holds. *)
Theorem environment_tokens_win
    (ws : char -> bool) (xc xd : option pystr) (file : option (list pystr)) :
  (truthy xc = true -> fst (load_tokens ws xc xd file) = xc) /\
  (truthy xd = true -> snd (load_tokens ws xc xd file) = xd).
Proof.
  unfold load_tokens, load_env_file.
  split; intros H; destruct (negb _); destruct file as [lines|]; try reflexivity.
  - now apply env_lines_keeps_fst.
  - now apply env_lines_keeps_snd.
Qed.

(** X16 ([load_tokens], [load_env_file]): when the environment gives no
    (or an empty) [SLACK_XOXC_TOKEN], the token is the value of the first line
    of the [.env] file that assigns it: the text after the first [=], with the
    white space at the two ends of the line taken off, later [=] signs kept;
    lines after it do not change it. *)
Theorem env_file_first_assignment
    (ws : char -> bool) (xc xd : option pystr)
    (before after : list pystr) (lead value trail : pystr) :
  truthy xc = false ->
  forallb (fun l => negb (assigns ws (lit "SLACK_XOXC_TOKEN") l)) before = true ->
  forallb (is_space ws) lead = true ->
  forallb (is_space ws) trail = true ->
  value <> [] ->
  bare (is_space ws) value = true ->
  fst (load_tokens ws xc xd
         (Some (before ++ (lead ++ (lit "SLACK_XOXC_TOKEN=" ++ value) ++ trail) :: after)))
  = Some value.
Proof.
  intros Hx Hb Hl Ht Hv Hbare. unfold load_tokens, load_env_file.
  rewrite Hx. cbn [andb negb]. rewrite env_lines_app.
  pose proof (env_lines_other ws before xc xd Hb) as Hskip.
  destruct (env_lines ws before (xc, xd)) as [xc' xd']. simpl in Hskip. subst xc'.
  cbn [env_lines].
  rewrite (env_line_sets ws _ value xc xd' Hx).
  - apply env_lines_keeps_fst. now destruct value.
  - apply strip_by_core; try assumption.
    apply bare_app; [discriminate | assumption | reflexivity | assumption].
Qed.

Lemma env_file_first_assignment_example :
  fst (load_tokens (fun _ => false) None (Some (lit "xoxd-env"))
         (Some [lit "# tokens" ++ [10%N];
                lit "SLACK_XOXD_TOKEN=xoxd-file" ++ [10%N];
                lit "  " ++ (lit "SLACK_XOXC_TOKEN=" ++ lit "xoxc-a=b") ++ lit " " ++ [10%N];
                lit "SLACK_XOXC_TOKEN=later" ++ [10%N]]))
  = Some (lit "xoxc-a=b").
Proof.
  exact (env_file_first_assignment (fun _ => false) None (Some (lit "xoxd-env"))
           [lit "# tokens" ++ [10%N]; lit "SLACK_XOXD_TOKEN=xoxd-file" ++ [10%N]]
           [lit "SLACK_XOXC_TOKEN=later" ++ [10%N]]
           (lit "  ") (lit "xoxc-a=b") (lit " " ++ [10%N])
           eq_refl eq_refl eq_refl eq_refl ltac:(discriminate) eq_refl).
Defined.

(** ** The client and the request stage *)

Section RequestFacts.
Variable C : collaborators.
Variable P : platform C.

(** [main] once both tokens are found. *)
Lemma main_with_tokens (env : environment) (a : cli) (s : state C)
    (xoxc xoxd : pystr) :
  found_tokens P env = (Some xoxc, Some xoxd) -> xoxc <> [] -> xoxd <> [] ->
  main C P env a s =
  match
    bindM C (request_stage C P xoxc xoxd a)
      (output_stage C (dumps P) (output_args a)) s
  with
  | (Normal _, s') => (0%Z, s')
  | (Raised e, s') => (1%Z, emit s' [Stderr (lit "Error: " ++ exn_text e ++ [10%N])])
  | (SysExit code, s') => (code, s')
  end.
Proof.
  intros Hf Hc Hd. unfold main. rewrite Hf.
  destruct xoxc; [congruence|]. destruct xoxd; [congruence|]. reflexivity.
Qed.

(** One call of [_request], and what runs after it. *)
Lemma request_then {B : Type} (xoxc xoxd method : pystr)
    (params post_data : option (list (pystr * pvalue)))
    (k : envelope C -> M C B) (s : state C) (w : World C) (r : reply C) :
  urlopen P (world s)
    {| api_method := method;
       query := match params with
                | Some ((_ :: _) as d) => Some (sent_params d)
                | _ => None
                end;
       body := match post_data with
               | Some ((_ :: _) as d) => Some d
               | _ => None
               end;
       bearer := xoxc; cookie_d := xoxd |} = (w, r) ->
  bindM C (_request C P xoxc xoxd method params post_data) k s
  = k (reply_envelope C P r) (after_reply s w r).
Proof. intros H. unfold bindM, _request. rewrite H. reflexivity. Qed.

Lemma fail_with_exit {B : Type} (xoxc xoxd text : pystr)
    (k : envelope C -> M C B) (s : state C) :
  bindM C (fail_with C text) k s = (SysExit 1%Z, emit s [Stderr (text ++ [10%N])]).
Proof. reflexivity. Qed.

End RequestFacts.

(** X17 ([SlackClient.add_reaction]): the colons around the emoji name are
    taken off, however many there are on each side, and the colons inside the
    name are kept: the request is the one for the bare name. *)
Theorem add_reaction_strips_colons
    (C : collaborators) (P : platform C) (xoxc xoxd channel ts : pystr)
    (lead name trail : pystr) :
  forallb is_colon lead = true ->
  forallb is_colon trail = true ->
  bare is_colon name = true ->
  add_reaction C P xoxc xoxd channel ts (lead ++ name ++ trail)
  = _request C P xoxc xoxd (lit "reactions.add") None
      (Some [(lit "channel", PStr channel); (lit "timestamp", PStr ts);
             (lit "name", PStr name)]).
Proof.
  intros Hl Ht Hb. unfold add_reaction. now rewrite strip_by_core.
Qed.

Lemma add_reaction_strips_colons_example :
  add_reaction offline unreachable (lit "xoxc-1") (lit "xoxd-1") (lit "C1") (lit "1.000002")
    (lit "::" ++ lit "flag:se" ++ lit ":")
  = _request offline unreachable (lit "xoxc-1") (lit "xoxd-1") (lit "reactions.add") None
      (Some [(lit "channel", PStr (lit "C1")); (lit "timestamp", PStr (lit "1.000002"));
             (lit "name", PStr (lit "flag:se"))]).
Proof.
  exact (add_reaction_strips_colons offline unreachable (lit "xoxc-1") (lit "xoxd-1")
           (lit "C1") (lit "1.000002") (lit "::") (lit "flag:se") (lit ":")
           eq_refl eq_refl eq_refl).
Defined.

(** X18 ([main], lines 414-427; [SlackClient.get_channel_history]): a
    permalink without [thread_ts] makes no request. The call of line 427 passes
    the keyword [inclusive], which [get_channel_history] does not take: the
    [TypeError] is reported by the handler and the exit status is 1. *)
Theorem main_url_without_thread_ts
    (C : collaborators) (P : platform C) (env : environment) (a : cli) (s : state C)
    (xoxc xoxd u : pystr) (parsed : parsed_url) :
  found_tokens P env = (Some xoxc, Some xoxd) -> xoxc <> [] -> xoxd <> [] ->
  Cli.url a = Some u -> u <> [] ->
  parse_slack_url (digits_table P) u = Some parsed ->
  thread_ts parsed = None ->
  main C P env a s
  = (1%Z, emit s [Stderr (lit "Error: " ++ unexpected_keyword P ++ [10%N])]).
Proof.
  intros Hf Hc Hd Hu Hne Hp Ht.
  rewrite (main_with_tokens C P env a s xoxc xoxd Hf Hc Hd).
  unfold request_stage. rewrite Hu. destruct u; [congruence|].
  cbn [truthy nonempty get]. rewrite Hp, Ht. reflexivity.
Qed.

Lemma main_url_without_thread_ts_example :
  main offline unreachable both_set
    (url_action (lit "https://team.slack.com/archives/C05AZF69J9Z/p1769774454630549"))
    (start offline ∅ tt)
  = (1%Z, emit (start offline ∅ tt)
            [Stderr (lit "Error: SlackClient.get_channel_history() got an unexpected keyword argument 'inclusive'" ++ [10%N])]).
Proof.
  refine (main_url_without_thread_ts offline unreachable both_set
            (url_action (lit "https://team.slack.com/archives/C05AZF69J9Z/p1769774454630549"))
            (start offline ∅ tt) (lit "xoxc-1") (lit "xoxd-1") _
            {| channel_id := lit "C05AZF69J9Z"; message_ts := lit "1769774454.630549";
               thread_ts := None |}
            eq_refl _ _ eq_refl _ _ eq_refl);
    try discriminate.
  vm_compute. reflexivity.
Defined.

(** X19 ([main], lines 414-424; [SlackClient.get_thread_replies],
    [SlackClient._request]): a permalink with [thread_ts] makes one request,
    [conversations.replies] for the channel of the URL and that thread, with
    the limit of the command line, no cursor and [inclusive=true], under the two
    tokens found; the process ends as the output stage does on what came
    back. *)
Theorem main_url_with_thread_ts
    (C : collaborators) (P : platform C) (env : environment) (a : cli) (s : state C)
    (xoxc xoxd u ts : pystr) (parsed : parsed_url) (w : World C) (r : reply C) :
  found_tokens P env = (Some xoxc, Some xoxd) -> xoxc <> [] -> xoxd <> [] ->
  Cli.url a = Some u -> u <> [] ->
  parse_slack_url (digits_table P) u = Some parsed ->
  thread_ts parsed = Some ts ->
  urlopen P (world s)
    {| api_method := lit "conversations.replies";
       query := Some [(lit "channel", channel_id parsed); (lit "ts", ts);
                      (lit "limit", str_of_int (Cli.limit a));
                      (lit "inclusive", lit "true")];
       body := None; bearer := xoxc; cookie_d := xoxd |} = (w, r) ->
  main C P env a s
  = main_output C (dumps P) (output_args a) (reply_envelope C P r) (after_reply s w r).
Proof.
  intros Hf Hc Hd Hu Hne Hp Ht Hr.
  rewrite (main_with_tokens C P env a s xoxc xoxd Hf Hc Hd).
  unfold request_stage. rewrite Hu. destruct u; [congruence|].
  cbn [truthy nonempty get]. rewrite Hp, Ht.
  unfold get_thread_replies.
  rewrite (request_then C P _ _ _ _ _ _ _ w r); [reflexivity | exact Hr].
Qed.

Lemma main_url_with_thread_ts_example :
  let a := url_action (lit "https://team.slack.com/archives/C1/p1769774454630549?thread_ts=1769174779.798959") in
  main offline unreachable both_set a (start offline ∅ tt)
  = main_output offline (dumps unreachable) (output_args a)
      (reply_envelope offline unreachable (HTTPError 404 (lit "Not Found")))
      (start offline ∅ tt).
Proof.
  intros a.
  refine (main_url_with_thread_ts offline unreachable both_set a (start offline ∅ tt)
            (lit "xoxc-1") (lit "xoxd-1") _ (lit "1769174779.798959")
            {| channel_id := lit "C1"; message_ts := lit "1769774454.630549";
               thread_ts := Some (lit "1769174779.798959") |}
            tt (HTTPError 404 (lit "Not Found"))
            eq_refl _ _ eq_refl _ _ eq_refl eq_refl);
    try discriminate.
  vm_compute. reflexivity.
Defined.

(** X20 ([main], lines 414-418): a [--url] that [parse_slack_url] does not
    resolve makes no request: one line on stderr, which names the text, and
    exit status 1 (the handler adds nothing, [sys.exit] is no [Exception]). *)
Theorem main_unparsable_url
    (C : collaborators) (P : platform C) (env : environment) (a : cli) (s : state C)
    (xoxc xoxd u : pystr) :
  found_tokens P env = (Some xoxc, Some xoxd) -> xoxc <> [] -> xoxd <> [] ->
  Cli.url a = Some u -> u <> [] ->
  parse_slack_url (digits_table P) u = None ->
  main C P env a s
  = (1%Z, emit s [Stderr ((lit "Error: Could not parse Slack URL: " ++ u) ++ [10%N])]).
Proof.
  intros Hf Hc Hd Hu Hne Hp.
  rewrite (main_with_tokens C P env a s xoxc xoxd Hf Hc Hd).
  unfold request_stage. rewrite Hu. destruct u; [congruence|].
  cbn [truthy nonempty get]. rewrite Hp. reflexivity.
Qed.

Lemma main_unparsable_url_example :
  main offline unreachable both_set
    (url_action (lit "https://team.slack.com/messages/C1")) (start offline ∅ tt)
  = (1%Z, emit (start offline ∅ tt)
            [Stderr ((lit "Error: Could not parse Slack URL: "
                      ++ lit "https://team.slack.com/messages/C1") ++ [10%N])]).
Proof.
  refine (main_unparsable_url offline unreachable both_set
            (url_action (lit "https://team.slack.com/messages/C1")) (start offline ∅ tt)
            (lit "xoxc-1") (lit "xoxd-1") _ eq_refl _ _ eq_refl _ _);
    try discriminate.
  vm_compute. reflexivity.
Defined.

(** X21 ([main], lines 414-461): with a non-empty [--url] the other
    actions and their parameters are not looked at: two command lines with the
    same URL, the same limit and the same output options behave alike, whatever
    their [--history], [--replies], [--list-channels], [--post], [--user-info],
    [--channel-info], [--channel], [--thread-ts], [--text] and [--cursor]. *)
Theorem url_ignores_other_actions
    (C : collaborators) (P : platform C) (env : environment) (a b : cli) (s : state C) :
  truthy (Cli.url a) = true ->
  Cli.url b = Cli.url a ->
  Cli.limit b = Cli.limit a ->
  output_args b = output_args a ->
  main C P env b s = main C P env a s.
Proof.
  intros Hu Hb Hl Ho. unfold main.
  destruct (found_tokens P env) as [xoxc xoxd].
  destruct (negb _); [reflexivity|].
  rewrite Ho. unfold request_stage. rewrite Hb, Hu, Hl. reflexivity.
Qed.

Lemma url_ignores_other_actions_example :
  let u := lit "https://team.slack.com/archives/C1/p1769774454630549?thread_ts=1.5" in
  let b :=
    {| Cli.url := Some u; Cli.history := true; Cli.replies := true;
       Cli.search := None; Cli.list_channels := true; Cli.post := true;
       Cli.user_info := Some (lit "U1"); Cli.channel_info := Some (lit "C2");
       Cli.list_files := false; Cli.download_files := false;
       Cli.output_dir := lit "./slack-downloads";
       Cli.channel := Some (lit "C2"); Cli.thread_ts := Some (lit "2.5");
       Cli.text := Some (lit "hello");
       Cli.limit := 20; Cli.cursor := Some (lit "next"); Cli.json := false;
       Cli.verbose := false |} in
  main offline unreachable both_set b (start offline ∅ tt)
  = main offline unreachable both_set (url_action u) (start offline ∅ tt).
Proof.
  intros u b.
  exact (url_ignores_other_actions offline unreachable both_set (url_action u) b
           (start offline ∅ tt) eq_refl eq_refl eq_refl eq_refl).
Defined.

(** X22 ([main], lines 429-433 and 464-471; [SlackClient._request],
    [SlackClient.get_channel_history]): [--history] asks
    [conversations.history] for the channel and the limit, with the cursor only
    when one is given ([latest], [oldest] and [include_all_metadata] are never
    sent); when the transport answers with an HTTP error, the process prints
    [Error: HTTP <code>: <reason>] on stderr and exits with status 1. *)
Theorem history_transport_failure
    (C : collaborators) (P : platform C) (env : environment) (a : cli) (s : state C)
    (xoxc xoxd ch reason : pystr) (code : Z) (w : World C) :
  found_tokens P env = (Some xoxc, Some xoxd) -> xoxc <> [] -> xoxd <> [] ->
  truthy (Cli.url a) = false ->
  Cli.history a = true ->
  Cli.channel a = Some ch -> ch <> [] ->
  Cli.json a = false ->
  urlopen P (world s)
    {| api_method := lit "conversations.history";
       query := Some ([(lit "channel", ch); (lit "limit", str_of_int (Cli.limit a))]
                      ++ match Cli.cursor a with
                         | Some c => [(lit "cursor", c)]
                         | None => []
                         end);
       body := None; bearer := xoxc; cookie_d := xoxd |} = (w, HTTPError code reason) ->
  main C P env a s
  = (1%Z, emit (with_world s w)
            [Stderr ((lit "Error: " ++ lit "HTTP " ++ str_of_int code ++ lit ": " ++ reason)
                     ++ [10%N])]).
Proof.
  intros Hf Hc Hd Hu Hh Hch Hne Hj Hr.
  rewrite (main_with_tokens C P env a s xoxc xoxd Hf Hc Hd).
  unfold request_stage. rewrite Hu, Hh, Hch. destruct ch as [|c0 ch]; [congruence|].
  cbn [truthy nonempty get negb]. unfold get_channel_history.
  rewrite (request_then C P _ _ _ _ _ _ _ w (HTTPError code reason)).
  - unfold output_stage, output_args. cbn [Args.json]. rewrite Hj. reflexivity.
  - rewrite <- Hr. f_equal. f_equal. destruct (Cli.cursor a); reflexivity.
Qed.

Lemma history_transport_failure_example :
  main offline unreachable both_set (history_action (lit "C1") (Some (lit "next")))
    (start offline ∅ tt)
  = (1%Z, emit (start offline ∅ tt)
            [Stderr ((lit "Error: " ++ lit "HTTP " ++ str_of_int 404 ++ lit ": "
                      ++ lit "Not Found") ++ [10%N])]).
Proof.
  exact (history_transport_failure offline unreachable both_set
           (history_action (lit "C1") (Some (lit "next"))) (start offline ∅ tt)
           (lit "xoxc-1") (lit "xoxd-1") (lit "C1") (lit "Not Found") 404 tt
           eq_refl ltac:(discriminate) ltac:(discriminate) eq_refl eq_refl eq_refl
           ltac:(discriminate) eq_refl eq_refl).
Defined.

(** X23 ([main], lines 414-451; [SlackClient.post_message]): [--post] is
    reached only when no earlier action is given. With [--url], [--history],
    [--replies], [--search] or [--list-channels] on the command line, [--post]
    and [--text] change nothing. Without them, and with a channel and a text,
    [--post] makes one request, [chat.postMessage] with the channel and the
    text in a JSON body and no query, and the body names the thread (with
    [reply_broadcast] false) exactly when [--thread-ts] is given and not
    empty. *)
Theorem main_post_request
    (C : collaborators) (P : platform C) (env : environment) (a : cli) (s : state C)
    (xoxc xoxd : pystr) :
  found_tokens P env = (Some xoxc, Some xoxd) -> xoxc <> [] -> xoxd <> [] ->
  (earlier_action a = true ->
   forall b : cli, same_but_post a b -> main C P env b s = main C P env a s) /\
  (earlier_action a = false ->
   Cli.post a = true ->
   forall (ch text : pystr) (w : World C) (r : reply C),
     Cli.channel a = Some ch -> ch <> [] ->
     Cli.text a = Some text -> text <> [] ->
     urlopen P (world s)
       {| api_method := lit "chat.postMessage";
          query := None;
          body := Some ([(lit "channel", PStr ch); (lit "text", PStr text)]
                        ++ match Cli.thread_ts a with
                           | Some ((_ :: _) as t) =>
                               [(lit "thread_ts", PStr t);
                                (lit "reply_broadcast", PBool false)]
                           | _ => []
                           end);
          bearer := xoxc; cookie_d := xoxd |} = (w, r) ->
     main C P env a s
     = main_output C (dumps P) (output_args a) (reply_envelope C P r)
         (after_reply s w r)).
Proof.
  intros Hf Hc Hd. split.
  - intros He b Hb.
    rewrite !(main_with_tokens C P env _ s xoxc xoxd Hf Hc Hd).
    destruct Hb as (Hurl & Hhis & Hrep & Hsea & Hlc & Hui & Hci & Hlf & Hdf & Hod
                    & Hch & Hts & Hlim & Hcur & Hjs & Hvb).
    assert (output_args b = output_args a) as ->.
    { unfold output_args. now rewrite Hjs, Hlf, Hdf, Hvb, Hod, Hsea. }
    assert (request_stage C P xoxc xoxd b = request_stage C P xoxc xoxd a) as ->;
      [|reflexivity].
    unfold earlier_action in He. unfold request_stage.
    rewrite Hurl, Hhis, Hrep, Hsea, Hlc, Hch, Hts, Hlim, Hcur.
    destruct (truthy (Cli.url a)); [reflexivity|].
    destruct (Cli.history a); [reflexivity|].
    destruct (Cli.replies a); [reflexivity|].
    destruct (truthy (Cli.search a)); [reflexivity|].
    destruct (Cli.list_channels a); [reflexivity|].
    discriminate He.
  - intros He Hp ch text w r Hch Hne Ht Hte Hr.
    unfold earlier_action in He.
    apply orb_false_elim in He as [He Hl]. apply orb_false_elim in He as [He Hs].
    apply orb_false_elim in He as [He Hrp]. apply orb_false_elim in He as [Hu Hh].
    rewrite (main_with_tokens C P env a s xoxc xoxd Hf Hc Hd).
    unfold request_stage. rewrite Hu, Hh, Hrp, Hs, Hl, Hp, Hch, Ht.
    destruct ch as [|c0 ch]; [congruence|]. destruct text as [|t0 text]; [congruence|].
    cbn [truthy nonempty get negb orb]. unfold post_message.
    rewrite (request_then C P _ _ _ _ _ _ _ w r); [reflexivity|].
    rewrite <- Hr. f_equal. f_equal.
    destruct (Cli.thread_ts a) as [[|t1 t]|]; reflexivity.
Qed.

Lemma main_post_request_example :
  let a := post_action (lit "C1") (lit "Hello!") (Some []) in
  let h := history_action (lit "C1") None in
  let b :=
    {| Cli.url := None; Cli.history := true; Cli.replies := false;
       Cli.search := None; Cli.list_channels := false; Cli.post := true;
       Cli.user_info := None; Cli.channel_info := None;
       Cli.list_files := false; Cli.download_files := false;
       Cli.output_dir := lit "./slack-downloads";
       Cli.channel := Some (lit "C1"); Cli.thread_ts := None;
       Cli.text := Some (lit "Hello!");
       Cli.limit := 20; Cli.cursor := None; Cli.json := false; Cli.verbose := false |} in
  main offline unreachable both_set b (start offline ∅ tt)
  = main offline unreachable both_set h (start offline ∅ tt) /\
  main offline unreachable both_set a (start offline ∅ tt)
  = main_output offline (dumps unreachable) (output_args a)
      (reply_envelope offline unreachable (HTTPError 404 (lit "Not Found")))
      (start offline ∅ tt).
Proof.
  intros a h b. split.
  - refine (proj1 (main_post_request offline unreachable both_set h (start offline ∅ tt)
                     (lit "xoxc-1") (lit "xoxd-1")
                     eq_refl ltac:(discriminate) ltac:(discriminate))
              eq_refl b _).
    unfold same_but_post. repeat split.
  - exact (proj2 (main_post_request offline unreachable both_set a (start offline ∅ tt)
                    (lit "xoxc-1") (lit "xoxd-1")
                    eq_refl ltac:(discriminate) ltac:(discriminate))
             eq_refl eq_refl (lit "C1") (lit "Hello!") tt
             (HTTPError 404 (lit "Not Found"))
             eq_refl ltac:(discriminate) eq_refl ltac:(discriminate) eq_refl).
Defined.

(** X24 ([main], lines 402-408 and 459-461): without an action (an empty
    [--url], [--search], [--user-info] or [--channel-info] counts as none) no
    request is made: the help text goes to stdout with exit status 0 when both
    tokens are found, and the three lines about the tokens go to stderr with
    exit status 1 when one is missing or empty. *)
Theorem main_without_action
    (C : collaborators) (P : platform C) (env : environment) (a : cli) (s : state C) :
  truthy (Cli.url a) = false -> Cli.history a = false -> Cli.replies a = false ->
  truthy (Cli.search a) = false -> Cli.list_channels a = false ->
  Cli.post a = false ->
  truthy (Cli.user_info a) = false -> truthy (Cli.channel_info a) = false ->
  main C P env a s
  = if truthy (fst (found_tokens P env)) && truthy (snd (found_tokens P env))
    then (0%Z, emit s [Stdout (help_text P)])
    else (1%Z, emit s tokens_not_found).
Proof.
  intros Hu Hh Hr Hs Hl Hp Hui Hci. unfold main.
  destruct (found_tokens P env) as [xoxc xoxd]. cbn [fst snd].
  destruct (truthy xoxc && truthy xoxd); [|reflexivity].
  cbn [negb]. unfold request_stage. rewrite Hu, Hh, Hr, Hs, Hl, Hp, Hui, Hci.
  reflexivity.
Qed.

Lemma main_without_action_example :
  let a :=
    {| Cli.url := Some []; Cli.history := false; Cli.replies := false;
       Cli.search := Some []; Cli.list_channels := false; Cli.post := false;
       Cli.user_info := None; Cli.channel_info := None;
       Cli.list_files := true; Cli.download_files := false;
       Cli.output_dir := lit "./slack-downloads";
       Cli.channel := Some (lit "C1"); Cli.thread_ts := None; Cli.text := None;
       Cli.limit := 20; Cli.cursor := None; Cli.json := true; Cli.verbose := false |} in
  main offline unreachable both_set a (start offline ∅ tt)
  = (0%Z, emit (start offline ∅ tt) [Stdout (lit "usage: slack.py")]).
Proof.
  intros a.
  exact (main_without_action offline unreachable both_set a (start offline ∅ tt)
           eq_refl eq_refl eq_refl eq_refl eq_refl eq_refl eq_refl eq_refl).
Defined.
